(** * The benchmark orchestrator [scripts/run_benchmarks.py]

    A shallow embedding of the orchestration script: the [Target]
    abstraction and its command template, the measurement round trip through
    a temporary result file, the nested measurement loop of [main], and the
    plain-text table renderer, together with the properties its
    specification states about them.

    Python values are embedded as follows.
    - [str] is a list of Unicode code points ([list N]); [len] is [length].
    - [bytes] (file contents) is [list byte]; [read_text] decodes UTF-8.
    - [int] is [Z]; [float] is a binary64 number ([spec_float]).
    - [dict] with string keys is a [gmap] keyed by text.
    - a raised exception is the [Raise] outcome of a computation, and code
      that touches the file system, spawns processes or prints threads a
      [world] through. *)

From Stdlib Require Import ZArith NArith List Lia DecimalZ.
From Stdlib Require Import Strings.String Strings.Byte.
From Stdlib Require Import Floats.SpecFloat.
From stdpp Require Import gmap list.

#[local] Set Warnings "-register-all".
#[local] Open Scope Z_scope.

(** ** Text *)

(** A Python [str]: a sequence of code points. *)
Abbreviation pystr := (list N).

Module Utf8.

Definition cont (b : N) : bool := (128 <=? b)%N && (b <=? 191)%N.
Definition within (lo hi b : N) : bool := (lo <=? b)%N && (b <=? hi)%N.
Definition low6 (b : N) : N := (b mod 64)%N.

(** Strict UTF-8 decoding, as [bytes.decode("utf-8")] performs it: shortest
    forms only, no surrogates, nothing above U+10FFFF.  [None] stands for
    [UnicodeDecodeError]. *)
Fixpoint decode (bs : list N) : option pystr :=
  match bs with
  | [] => Some []
  | b0 :: r0 =>
    if (b0 <? 128)%N then cons b0 <$> decode r0 else
    match r0 with
    | [] => None
    | b1 :: r1 =>
      if within 194 223 b0 then
        if cont b1 then cons ((b0 mod 32) * 64 + low6 b1)%N <$> decode r1
        else None
      else
      match r1 with
      | [] => None
      | b2 :: r2 =>
        if within 224 239 b0 then
          if within (if (b0 =? 224)%N then 160 else 128)
                    (if (b0 =? 237)%N then 159 else 191) b1 && cont b2
          then cons ((b0 mod 16) * 4096 + low6 b1 * 64 + low6 b2)%N
                 <$> decode r2
          else None
        else
        match r2 with
        | [] => None
        | b3 :: r3 =>
          if within 240 244 b0
             && within (if (b0 =? 240)%N then 144 else 128)
                       (if (b0 =? 244)%N then 143 else 191) b1
             && cont b2 && cont b3
          then cons ((b0 mod 8) * 262144 + low6 b1 * 4096
                     + low6 b2 * 64 + low6 b3)%N <$> decode r3
          else None
        end
      end
    end
  end.

Definition decode_bytes (bs : list byte) : option pystr :=
  decode (map Byte.to_N bs).

End Utf8.

(** Reading in text mode turns every line ending into a line feed. *)
Fixpoint universal_newlines (s : pystr) : pystr :=
  match s with
  | [] => []
  | c :: r =>
    if (c =? 13)%N then
      10%N :: match r with
              | d :: r' =>
                if (d =? 10)%N then universal_newlines r'
                else universal_newlines r
              | [] => []
              end
    else c :: universal_newlines r
  end.

(** The text of a file read with [encoding = "utf-8"]; [None] stands for
    [UnicodeDecodeError]. *)
Definition decode_text (content : list byte) : option pystr :=
  universal_newlines <$> Utf8.decode_bytes content.

(** A text literal: the code points of a UTF-8 encoded source literal. *)
Definition txt (s : string) : pystr :=
  default [] (Utf8.decode_bytes (list_byte_of_string s)).

(** The characters of a decimal numeral. *)
Fixpoint digits (u : Decimal.uint) : pystr :=
  match u with
  | Decimal.Nil => []
  | Decimal.D0 r => 48%N :: digits r
  | Decimal.D1 r => 49%N :: digits r
  | Decimal.D2 r => 50%N :: digits r
  | Decimal.D3 r => 51%N :: digits r
  | Decimal.D4 r => 52%N :: digits r
  | Decimal.D5 r => 53%N :: digits r
  | Decimal.D6 r => 54%N :: digits r
  | Decimal.D7 r => 55%N :: digits r
  | Decimal.D8 r => 56%N :: digits r
  | Decimal.D9 r => 57%N :: digits r
  end.

(** [str(n)] for an [int]: the decimal numeral, with a minus sign for
    negative numbers and no leading zeros. *)
Definition str_of_int (n : Z) : pystr :=
  match Z.to_int n with
  | Decimal.Pos u => digits u
  | Decimal.Neg u => 45%N :: digits u
  end.

(** The value of a digit string read in base ten. *)
Definition dec_value (s : pystr) : N :=
  fold_left (fun acc d => (10 * acc + (d - 48))%N) s 0%N.

(** ** String methods *)

(** [str.isspace] for one code point: the characters [str.strip] removes. *)
Definition isspace (c : N) : bool :=
  (Utf8.within 9 13 c || Utf8.within 28 32 c || (c =? 133) || (c =? 160)
   || (c =? 5760) || Utf8.within 8192 8202 c || Utf8.within 8232 8233 c
   || (c =? 8239) || (c =? 8287) || (c =? 12288))%N.

Fixpoint lstrip (s : pystr) : pystr :=
  match s with
  | c :: r => if isspace c then lstrip r else s
  | [] => []
  end.

Definition rstrip (s : pystr) : pystr := rev (lstrip (rev s)).

(** [s.strip()] *)
Definition strip (s : pystr) : pystr := rstrip (lstrip s).

(** [s.ljust(width)]: pads with spaces on the right, never truncates. *)
Definition ljust (s : pystr) (width : nat) : pystr :=
  s ++ replicate (width - length s)%nat 32%N.

(** [sep.join(parts)] *)
Fixpoint join (sep : pystr) (parts : list pystr) : pystr :=
  match parts with
  | [] => []
  | [p] => p
  | p :: ps => p ++ sep ++ join sep ps
  end.

(** ** Floats *)

Module Float.

(** binary64 *)
Definition prec : Z := 53.
Definition emax : Z := 1024.

(** [float(n)] for an [int]: round to nearest, ties to even; [None] when
    the magnitude is too large ([OverflowError]). *)
Definition of_int (n : Z) : option spec_float :=
  match binary_normalize prec emax n 0 false with
  | S754_infinity _ => None
  | f => Some f
  end.

(** The float nearest to [± m * 10 ^ e], as [float("...")] converts a
    decimal literal (correctly rounded, ties to even, overflow to
    infinity). *)
Definition of_decimal (neg : bool) (m : N) (e : Z) : spec_float :=
  match m with
  | N0 => S754_zero neg
  | Npos p =>
    match e with
    | Zneg k =>
      let '(q, e', l) :=
        SFdiv_core_binary prec emax (Zpos p) 0 (Zpos (10 ^ k)) 0 in
      binary_round_aux prec emax neg q e' l
    | _ => binary_round prec emax neg (p * Z.to_pos (10 ^ e)) 0
    end
  end.

(** [num / den] rounded to an integer, ties to even ([0 <= num],
    [0 < den]). *)
Definition round_half_even (num den : Z) : Z :=
  let q := num / den in
  match (2 * (num mod den)) ?= den with
  | Lt => q
  | Gt => q + 1
  | Eq => if Z.even q then q else q + 1
  end.

Definition sign (neg : bool) : pystr := if neg then [45%N] else [].

Definition two_digits (n : Z) : pystr :=
  [Z.to_N (48 + n / 10); Z.to_N (48 + n mod 10)].

(** [format(x, ".2f")] for a float: the exact binary value rounded to two
    decimals, ties to even. *)
Definition format_2f (x : spec_float) : pystr :=
  match x with
  | S754_nan => txt "nan"
  | S754_infinity s => sign s ++ txt "inf"
  | S754_zero s => sign s ++ txt "0.00"
  | S754_finite s m e =>
    let hundredths :=
      match e with
      | Zneg k => round_half_even (Zpos m * 100) (2 ^ Zpos k)
      | _ => Zpos m * 2 ^ e * 100
      end in
    sign s ++ str_of_int (hundredths / 100) ++ [46%N]
           ++ two_digits (hundredths mod 100)
  end.

End Float.

(** ** JSON values and [json.loads] *)

(** The Python value [json.loads] builds. *)
Inductive json :=
| JNull
| JBool (b : bool)
| JInt (n : Z)
| JFloat (x : spec_float)
| JStr (s : pystr)
| JList (items : list json)
| JObj (members : gmap pystr json).

Module Json.

(** The outcome of scanning a prefix of the input: a value and the rest
    of the input, a syntax error, or recursion budget used up. *)
Inductive scanned (A : Type) :=
| Scanned (a : A) (rest : pystr)
| Invalid
| Starved.
Arguments Scanned {A} a rest.
Arguments Invalid {A}.
Arguments Starved {A}.

Definition is_ws (c : N) : bool :=
  ((c =? 32) || (c =? 9) || (c =? 10) || (c =? 13))%N.

Fixpoint skip_ws (s : pystr) : pystr :=
  match s with
  | c :: r => if is_ws c then skip_ws r else s
  | [] => []
  end.

Definition is_digit (c : N) : bool := Utf8.within 48 57 c.

Fixpoint span_digits (s : pystr) : pystr * pystr :=
  match s with
  | c :: r =>
    if is_digit c then let '(ds, r') := span_digits r in (c :: ds, r')
    else ([], s)
  | [] => ([], [])
  end.

Fixpoint strip_prefix (p s : pystr) : option pystr :=
  match p, s with
  | [], _ => Some s
  | a :: p', b :: s' => if (a =? b)%N then strip_prefix p' s' else None
  | _ :: _, [] => None
  end.

(** The input after its first character, when that is [c]. *)
Definition starts (c : N) (s : pystr) : option pystr :=
  match s with
  | x :: r => if (x =? c)%N then Some r else None
  | [] => None
  end.

Definition hex_digit (c : N) : option N :=
  if Utf8.within 48 57 c then Some (c - 48)%N
  else if Utf8.within 97 102 c then Some (c - 87)%N
  else if Utf8.within 65 70 c then Some (c - 55)%N
  else None.

Definition hex4 (a b c d : N) : option N :=
  a ← hex_digit a; b ← hex_digit b; c ← hex_digit c; d ← hex_digit d;
  Some (a * 4096 + b * 256 + c * 16 + d)%N.

Definition simple_escape (c : N) : option N :=
  if (c =? 34)%N then Some 34%N            (* quote *)
  else if (c =? 92)%N then Some 92%N       (* backslash *)
  else if (c =? 47)%N then Some 47%N       (* slash *)
  else if (c =? 98)%N then Some 8%N        (* b *)
  else if (c =? 102)%N then Some 12%N      (* f *)
  else if (c =? 110)%N then Some 10%N      (* n *)
  else if (c =? 114)%N then Some 13%N      (* r *)
  else if (c =? 116)%N then Some 9%N       (* t *)
  else None.

(** The body of a string literal, after its opening quote (strict mode:
    raw control characters are rejected). *)
Fixpoint scanstring (s : pystr) (acc : pystr) : scanned pystr :=
  match s with
  | [] => Invalid
  | c :: r =>
    if (c =? 34)%N then Scanned acc r
    else if (c =? 92)%N then
      match r with
      | [] => Invalid
      | e :: r1 =>
        if (e =? 117)%N then
          match r1 with
          | h1 :: h2 :: h3 :: h4 :: r5 =>
            match hex4 h1 h2 h3 h4 with
            | None => Invalid
            | Some hi =>
              match r5 with
              | b :: u :: l1 :: l2 :: l3 :: l4 :: r11 =>
                match hex4 l1 l2 l3 l4 with
                | Some lo =>
                  if (b =? 92)%N && (u =? 117)%N
                     && Utf8.within 55296 56319 hi
                     && Utf8.within 56320 57343 lo
                  then scanstring r11
                         (acc ++ [65536 + (hi - 55296) * 1024
                                  + (lo - 56320)]%N)
                  else scanstring r5 (acc ++ [hi])
                | None => scanstring r5 (acc ++ [hi])
                end
              | _ => scanstring r5 (acc ++ [hi])
              end
            end
          | _ => Invalid
          end
        else
          match simple_escape e with
          | Some ch => scanstring r1 (acc ++ [ch])
          | None => Invalid
          end
      end
    else if (c <=? 31)%N then Invalid
    else scanstring r (acc ++ [c])
  end.

(** The integer part of a number: [0], or a nonzero digit and more
    digits. *)
Definition scan_int_part (s : pystr) : option (pystr * pystr) :=
  match s with
  | d :: r =>
    if (d =? 48)%N then Some ([d], r)
    else if is_digit d
         then let '(ds, r') := span_digits r in Some (d :: ds, r')
         else None
  | [] => None
  end.

(** The digits of a fraction, when a point and at least one digit
    follow. *)
Definition scan_fraction (s : pystr) : pystr * pystr :=
  match starts 46 s with
  | Some r =>
    match span_digits r with
    | ([], _) => ([], s)
    | (fs, r') => (fs, r')
    end
  | None => ([], s)
  end.

(** The sign and digits of an exponent, when [e] or [E], an optional
    sign and at least one digit follow. *)
Definition scan_exponent (s : pystr) : option (bool * pystr) * pystr :=
  match s with
  | e :: r =>
    if ((e =? 101) || (e =? 69))%N then
      let '(eneg, r') :=
        match starts 43 r, starts 45 r with
        | Some t, _ => (false, t)
        | None, Some t => (true, t)
        | None, None => (false, r)
        end in
      match span_digits r' with
      | ([], _) => (None, s)
      | (es, r'') => (Some (eneg, es), r'')
      end
    else (None, s)
  | [] => (None, s)
  end.

(** An integer literal gives an [int], anything with a fraction or an
    exponent a [float]. *)
Definition number_value (neg : bool) (ipart frac : pystr)
    (expo : option (bool * pystr)) : json :=
  match frac, expo with
  | [], None =>
    let n := Z.of_N (dec_value ipart) in JInt (if neg then - n else n)
  | _, _ =>
    let e :=
      match expo with
      | Some (eneg, es) =>
        let x := Z.of_N (dec_value es) in if eneg then - x else x
      | None => 0
      end in
    JFloat (Float.of_decimal neg (dec_value (ipart ++ frac))
              (e - Z.of_nat (length frac)))
  end.

(** One number literal, longest match: an optional minus sign, the
    integer part, an optional fraction and an optional exponent. *)
Definition scan_number (s : pystr) : option (json * pystr) :=
  let '(neg, s1) :=
    match starts 45 s with
    | Some r => (true, r)
    | None => (false, s)
    end in
  match scan_int_part s1 with
  | None => None
  | Some (ipart, r1) =>
    let '(frac, r2) := scan_fraction r1 in
    let '(expo, r3) := scan_exponent r2 in
    Some (number_value neg ipart frac expo, r3)
  end.

Definition literal (word : string) (v : json) (s : pystr)
  : scanned json :=
  match strip_prefix (txt word) s with
  | Some r => Scanned v r
  | None => Invalid
  end.

(** One value at the head of the input.  [fuel] bounds the depth of the
    recursive calls; [loads] supplies enough for any input. *)
Fixpoint scan_once (fuel : nat) (s : pystr) : scanned json :=
  match fuel with
  | O => Starved
  | S fuel =>
    match s with
    | [] => Invalid
    | c :: r =>
      if (c =? 34)%N then
        match scanstring r [] with
        | Scanned str r' => Scanned (JStr str) r'
        | Invalid => Invalid
        | Starved => Starved
        end
      else if (c =? 123)%N then
        match starts 125 (skip_ws r) with
        | Some r' => Scanned (JObj ∅) r'
        | None => parse_members fuel (skip_ws r) ∅
        end
      else if (c =? 91)%N then
        match starts 93 (skip_ws r) with
        | Some r' => Scanned (JList []) r'
        | None => parse_items fuel (skip_ws r) []
        end
      else if (c =? 110)%N then literal "null" JNull s
      else if (c =? 116)%N then literal "true" (JBool true) s
      else if (c =? 102)%N then literal "false" (JBool false) s
      else if (c =? 78)%N then literal "NaN" (JFloat S754_nan) s
      else if (c =? 73)%N
           then literal "Infinity" (JFloat (S754_infinity false)) s
      else
        match strip_prefix (txt "-Infinity") s with
        | Some r' => Scanned (JFloat (S754_infinity true)) r'
        | None =>
          match scan_number s with
          | Some (v, r') => Scanned v r'
          | None => Invalid
          end
        end
    end
  end

(** The members of an object, from a key on; a later duplicate key
    replaces the earlier value. *)
with parse_members (fuel : nat) (s : pystr) (acc : gmap pystr json)
  : scanned json :=
  match fuel with
  | O => Starved
  | S fuel =>
    match starts 34 s with
    | Some r =>
      match scanstring r [] with
      | Scanned key r1 =>
        match starts 58 (skip_ws r1) with
        | Some r2 =>
          match scan_once fuel (skip_ws r2) with
          | Scanned v r3 =>
            match starts 125 (skip_ws r3), starts 44 (skip_ws r3) with
            | Some r4, _ => Scanned (JObj (<[key:=v]> acc)) r4
            | None, Some r4 =>
              parse_members fuel (skip_ws r4) (<[key:=v]> acc)
            | None, None => Invalid
            end
          | Invalid => Invalid
          | Starved => Starved
          end
        | None => Invalid
        end
      | Invalid => Invalid
      | Starved => Starved
      end
    | None => Invalid
    end
  end

(** The items of an array, from an item on. *)
with parse_items (fuel : nat) (s : pystr) (acc : list json)
  : scanned json :=
  match fuel with
  | O => Starved
  | S fuel =>
    match scan_once fuel s with
    | Scanned v r1 =>
      match starts 93 (skip_ws r1), starts 44 (skip_ws r1) with
      | Some r2, _ => Scanned (JList (acc ++ [v])) r2
      | None, Some r2 => parse_items fuel (skip_ws r2) (acc ++ [v])
      | None, None => Invalid
      end
    | Invalid => Invalid
    | Starved => Starved
    end
  end.

(** A scan of [s] that did not run out of budget and, when it succeeded,
    consumed some input. *)
Definition fed {A} (x : scanned A) (s : pystr) : Prop :=
  x <> Starved /\ forall v r, x = Scanned v r -> (length r < length s)%nat.

(** [json.loads(s)] for a [str]: one value, surrounded by optional
    white space and nothing else.  [None] stands for [JSONDecodeError]. *)
Definition loads (s : pystr) : option json :=
  match scan_once (S (2 * length s)) (skip_ws s) with
  | Scanned v r =>
    match skip_ws r with
    | [] => Some v
    | _ => None
    end
  | _ => None
  end.

End Json.



(** ** Exceptions, the world, and computations *)

Inductive exn :=
| CalledProcessError (returncode : Z) (cmd : list pystr)
                     (output stderr : option pystr)
| OSError            (* a child that cannot be started, a missing file *)
| RuntimeError (msg : pystr)
| UnicodeDecodeError
| JSONDecodeError
| KeyError (key : pystr)
| IndexError
| TypeError
| ValueError
| AttributeError
| OverflowError.

Inductive result (A : Type) :=
| Ok (a : A)
| Raise (e : exn).
Arguments Ok {A} a.
Arguments Raise {A} e.

(** What the session does that can be observed from outside, in order. *)
Inductive event :=
| Spawn (argv : list pystr) (dir : option pystr) (environ : gmap pystr pystr)
| ChildOutput (out err : pystr)   (* written by a child to inherited streams *)
| Print (line : pystr)            (* [print] of the orchestrator *)
| Traceback (e : exn).            (* the report of an uncaught exception *)

Record world := {
  files : gmap pystr (list byte);
  events : list event
}.

Definition log (ev : event) (w : world) : world :=
  {| files := files w; events := events w ++ [ev] |}.

(** The lines the orchestrator itself has printed. *)
Definition printed (w : world) : list pystr :=
  omap (fun ev => match ev with Print line => Some line | _ => None end)
       (events w).

(** The command lines of the child processes started so far. *)
Definition spawned (w : world) : list (list pystr) :=
  omap (fun ev => match ev with Spawn argv _ _ => Some argv | _ => None end)
       (events w).

(** The text of captured output that an exception carries. *)
Definition captured_text (e : exn) : list pystr :=
  match e with
  | CalledProcessError _ _ out err => option_list out ++ option_list err
  | RuntimeError msg => [msg]
  | _ => []
  end.

(** A computation may change the world and either returns or raises; the
    world keeps what happened before an exception. *)
Definition M (A : Type) : Type := world -> result A * world.

Definition ret {A} (a : A) : M A := fun w => (Ok a, w).
Definition raise {A} (e : exn) : M A := fun w => (Raise e, w).
Definition bind {A B} (m : M A) (k : A -> M B) : M B :=
  fun w =>
    match m w with
    | (Ok a, w') => k a w'
    | (Raise e, w') => (Raise e, w')
    end.
Definition lift {A} (r : result A) : M A := fun w => (r, w).

Declare Scope py_scope.
Delimit Scope py_scope with py.
Notation "x <- m ;; k" := (bind m (fun x => k))
  (at level 100, m at next level, right associativity) : py_scope.
Notation "m ;; k" := (bind m (fun _ => k))
  (at level 100, right associativity) : py_scope.

(** The same for code without effects. *)
Definition rbind {A B} (r : result A) (k : A -> result B) : result B :=
  match r with
  | Ok a => k a
  | Raise e => Raise e
  end.
Notation "'try!' x := r 'in' k" := (rbind r (fun x => k))
  (at level 100, x name, r at next level, right associativity) : py_scope.

(** What a child process did: its exit status, what it wrote to its
    standard streams, and the files it left behind. *)
Record completed := {
  returncode : Z;
  stdout : pystr;
  stderr : pystr;
  files_after : gmap pystr (list byte)
}.

(** ** Targets *)

Record Target := {
  name : pystr;
  cwd : pystr;
  template : list pystr;
  env : option (gmap pystr pystr)
}.

(** The placeholder token of an invocation template. *)
Definition placeholder : pystr := txt "{n}".

(** [Target.command]: the loop appends one token to [cmd] per template
    token. *)
Definition command (self : Target) (depth : Z) : list pystr :=
  fold_left
    (fun cmd token =>
       if decide (token = placeholder) then cmd ++ [str_of_int depth]
       else cmd ++ [token])
    (template self) [].

(** ** The session: builds and measurements *)

Section Session.

(** What the script takes from its surroundings: the repository root
    ([ROOT]), the home directory, the inherited environment, the name
    [tempfile] picks for a new file, what a child process does when it is
    run ([None]: it cannot be started), and the text [str] gives for a
    float, a list or a dict. *)
Variable ROOT : pystr.
Variable home : pystr.
Variable os_environ : gmap pystr pystr.
Variable temp_name : world -> pystr.
Variable execute :
  world -> list pystr -> option pystr -> gmap pystr pystr
  -> option completed.
Variable repr_other : json -> pystr.

(** [a / b] on paths, for a relative [b]. *)
Definition joinpath (a b : pystr) : pystr :=
  match last a with
  | Some 47%N => a ++ b
  | _ => a ++ txt "/" ++ b
  end.

Definition MEASURE_SCRIPT : pystr :=
  joinpath (joinpath ROOT (txt "scripts")) (txt "measure_memory.py").

(** The world once an empty file has been created at [path]. *)
Definition created (path : pystr) (w : world) : world :=
  {| files := <[path := []]> (files w); events := events w |}.

(** [tempfile.NamedTemporaryFile(delete = False)] followed by [close]: the
    file exists, empty, under the name picked for it. *)
Definition NamedTemporaryFile : M pystr :=
  fun w => let path := temp_name w in (Ok path, created path w).

(** [Path.exists] *)
Definition path_exists (path : pystr) : M bool :=
  fun w => (Ok (bool_decide (is_Some (files w !! path))), w).

(** [Path.read_text(encoding = "utf-8")] *)
Definition read_text (path : pystr) : M pystr :=
  fun w =>
    match files w !! path with
    | None => (Raise OSError, w)
    | Some content =>
      match decode_text content with
      | Some text => (Ok text, w)
      | None => (Raise UnicodeDecodeError, w)
      end
    end.

(** [Path.unlink(missing_ok)] *)
Definition unlink (missing_ok : bool) (path : pystr) : M unit :=
  fun w =>
    match files w !! path with
    | Some _ =>
      (Ok tt, {| files := delete path (files w); events := events w |})
    | None => if missing_ok then (Ok tt, w) else (Raise OSError, w)
    end.

(** [subprocess.run(cmd, cwd, env, check = True)]; with [capture] the two
    output streams are pipes and their text ends up in the completed
    process or in the exception, without it the child writes to the
    streams it inherits. *)
Definition subprocess_run (capture : bool) (cmd : list pystr)
    (dir : option pystr) (environ : option (gmap pystr pystr))
  : M completed :=
  fun w =>
    let environ := default os_environ environ in
    let w1 := log (Spawn cmd dir environ) w in
    match execute w cmd dir environ with
    | None => (Raise OSError, w1)
    | Some p =>
      let w2 := {| files := files_after p; events := events w1 |} in
      let w3 :=
        if capture then w2 else log (ChildOutput (stdout p) (stderr p)) w2 in
      if returncode p =? 0 then (Ok p, w3)
      else
        (Raise (CalledProcessError (returncode p) cmd
                  (if capture then Some (stdout p) else None)
                  (if capture then Some (stderr p) else None)), w3)
    end.

Definition ensure_rust_built : M unit :=
  let rust_dir := joinpath ROOT (txt "rust") in
  let cargo_bin := joinpath (joinpath home (txt ".cargo")) (txt "bin") in
  let environ :=
    <[txt "PATH" :=
        cargo_bin ++ txt ":" ++ default [] (os_environ !! txt "PATH")]>
      os_environ in
  fun w =>
    match
      subprocess_run true [txt "cargo"; txt "build"; txt "--release"]
        (Some rust_dir) (Some environ) w
    with
    | (Raise (CalledProcessError _ _ out err), w') =>
      let text :=
        match err with
        | Some ((_ :: _) as e) => e
        | _ => default (txt "None") out
        end in
      (Raise (RuntimeError (txt "cargo build --release 失败：" ++ text)), w')
    | (Raise e, w') => (Raise e, w')
    | (Ok _, w') => (Ok tt, w')
    end.

Definition dotnet_publish : list pystr :=
  [txt "dotnet"; txt "publish"; txt "-c"; txt "Release"; txt "-r";
   txt "linux-x64"; txt "--self-contained"; txt "true"].

Definition ensure_dotnet_built : M unit :=
  let dotnet_dir := joinpath ROOT (txt "dotnet") in
  (subprocess_run false dotnet_publish (Some dotnet_dir) None;;
   ret tt)%py.

Definition javac : list pystr := [txt "javac"; txt "BinaryTrees.java"].

Definition ensure_java_compiled : M unit :=
  let java_dir := joinpath ROOT (txt "java") in
  (subprocess_run false javac (Some java_dir) None;;
   ret tt)%py.

Definition go_build : list pystr :=
  [txt "go"; txt "build"; txt "-o"; txt "binarytrees"; txt "main.go"].

Definition ensure_go_built : M unit :=
  let go_dir := joinpath ROOT (txt "go") in
  let environ :=
    <[txt "GOCACHE" := joinpath go_dir (txt ".gocache")]> os_environ in
  (subprocess_run false go_build (Some go_dir) (Some environ);;
   ret tt)%py.

Definition compile_manual : list pystr :=
  [txt "g++"; txt "-O3"; txt "-std=c++20"; txt "manual.cc"; txt "-o";
   txt "binarytrees_manual"].

Definition compile_unique : list pystr :=
  [txt "g++"; txt "-O3"; txt "-std=c++20"; txt "unique_ptr.cc"; txt "-o";
   txt "binarytrees_unique"].

Definition ensure_cpp_built : M unit :=
  let cpp_dir := joinpath ROOT (txt "cpp") in
  (subprocess_run false compile_manual (Some cpp_dir) None;;
   subprocess_run false compile_unique (Some cpp_dir) None;;
   ret tt)%py.

(** The error raised when the result file is absent after the helper has
    exited. *)
Definition missing_result_file (target : Target) (depth : Z) : exn :=
  RuntimeError
    (txt "测量脚本未写入结果文件，语言=" ++ name target
     ++ txt ", 深度=" ++ str_of_int depth).

(** [data[key] = v] *)
Definition setitem (data : json) (key : pystr) (v : json) : result json :=
  match data with
  | JObj members => Ok (JObj (<[key := v]> members))
  | _ => Raise TypeError
  end.

(** The command line of the measurement helper for one request. *)
Definition helper_cmd (target : Target) (depth : Z) (python_exec : pystr)
    (json_file : pystr) : list pystr :=
  [python_exec; MEASURE_SCRIPT; txt "--cwd"; cwd target;
   txt "--json-file"; json_file; txt "--"] ++ command target depth.

(** The environment of the helper: the inherited one, updated with the
    overrides of the target when it has some. *)
Definition helper_env (target : Target) : gmap pystr pystr :=
  match env target with
  | Some overrides =>
    if decide (overrides = ∅) then os_environ else overrides ∪ os_environ
  | None => os_environ
  end.

(** The parsed object [members] once decorated. *)
Definition decorated (target : Target) (depth : Z)
    (members : gmap pystr json) : json :=
  JObj (<[txt "depth" := JInt depth]>
          (<[txt "language" := JStr (name target)]> members)).

Definition run_measurement (target : Target) (depth : Z)
    (python_exec : pystr) : M json :=
  (json_file <- NamedTemporaryFile;;
   let cmd := helper_cmd target depth python_exec json_file in
   let environ := helper_env target in
   subprocess_run false cmd None (Some environ);;
   present <- path_exists json_file;;
   if negb present then raise (missing_result_file target depth)
   else
     text <- read_text json_file;;
     let raw := strip text in
     unlink true json_file;;
     match Json.loads raw with
     | None => raise JSONDecodeError
     | Some data =>
       data <- lift (setitem data (txt "language") (JStr (name target)));;
       data <- lift (setitem data (txt "depth") (JInt depth));;
       ret data
     end)%py.

(** *** The table *)

(** [row[key]] *)
Definition getitem (row : json) (key : pystr) : result json :=
  match row with
  | JObj members =>
    match members !! key with
    | Some v => Ok v
    | None => Raise (KeyError key)
    end
  | _ => Raise TypeError
  end.

(** [f"{v}"] *)
Definition py_str (v : json) : pystr :=
  match v with
  | JInt n => str_of_int n
  | JStr s => s
  | JNull => txt "None"
  | JBool true => txt "True"
  | JBool false => txt "False"
  | _ => repr_other v
  end.

(** [f"{v:.2f}"]: an [int] (or [bool]) is converted to a float first; the
    format code is unknown to [str] and unsupported by the other types. *)
Definition format_2f (v : json) : result pystr :=
  match v with
  | JFloat x => Ok (Float.format_2f x)
  | JInt n =>
    match Float.of_int n with
    | Some x => Ok (Float.format_2f x)
    | None => Raise OverflowError
    end
  | JBool b => Ok (txt (if b then "1.00" else "0.00"))
  | JStr _ => Raise ValueError
  | _ => Raise TypeError
  end.

(** [len(v)] *)
Definition py_len (v : json) : result nat :=
  match v with
  | JStr s => Ok (length s)
  | JList items => Ok (length items)
  | JObj members => Ok (size members)
  | _ => Raise TypeError
  end.

(** The three cells of the report row of a result: its language label,
    its workload size as text, and its peak memory with two decimals;
    [None] when the result has no such row. *)
Definition report_row (row : json) : option (pystr * pystr * pystr) :=
  match row with
  | JObj members =>
    match members !! txt "language", members !! txt "depth",
          members !! txt "peak_mb" with
    | Some (JStr language), Some depth, Some peak_mb =>
      match format_2f peak_mb with
      | Ok text => Some (language, py_str depth, text)
      | Raise _ => None
      end
    | _, _, _ => None
    end
  | _ => None
  end.

Definition headers : list json :=
  [JStr (txt "语言"); JStr (txt "树深度"); JStr (txt "峰值 RSS (MB)")].

(** [[len(v) for v in values]] *)
Fixpoint lens (values : list json) : result (list nat) :=
  match values with
  | [] => Ok []
  | v :: rest =>
    (try! n := py_len v in try! ns := lens rest in Ok (n :: ns))%py
  end.

(** One element of the [data_rows] comprehension. *)
Definition data_row (row : json) : result (list json) :=
  (try! language := getitem row (txt "language") in
   try! depth := getitem row (txt "depth") in
   try! peak_mb := getitem row (txt "peak_mb") in
   try! peak_text := format_2f peak_mb in
   Ok [language; JStr (py_str depth); JStr peak_text])%py.

Fixpoint data_rows (rows : list json) : result (list (list json)) :=
  match rows with
  | [] => Ok []
  | row :: rest =>
    (try! cells := data_row row in
     try! more := data_rows rest in
     Ok (cells :: more))%py
  end.

(** The inner loop over [enumerate(row)], from index [idx] on:
    [widths[idx] = max(widths[idx], len(cell))]. *)
Fixpoint widen_row (cells : list json) (idx : nat) (widths : list nat)
  : result (list nat) :=
  match cells with
  | [] => Ok widths
  | cell :: rest =>
    match widths !! idx with
    | None => Raise IndexError
    | Some w =>
      (try! n := py_len cell in
       widen_row rest (S idx) (<[idx := Nat.max w n]> widths))%py
    end
  end.

(** The outer loop over [data_rows]. *)
Fixpoint widen (table : list (list json)) (widths : list nat)
  : result (list nat) :=
  match table with
  | [] => Ok widths
  | cells :: rest =>
    (try! widths := widen_row cells 0 widths in widen rest widths)%py
  end.

(** The padded cells [value.ljust(widths[i])] of [fmt], from index [i]
    on. *)
Fixpoint padded (widths : list nat) (values : list json) (i : nat)
  : result (list pystr) :=
  match values with
  | [] => Ok []
  | JStr s :: rest =>
    match widths !! i with
    | None => Raise IndexError
    | Some w =>
      (try! more := padded widths rest (S i) in Ok (ljust s w :: more))%py
    end
  | _ :: _ => Raise AttributeError
  end.

Definition fmt (widths : list nat) (values : list json) : result pystr :=
  (try! cells := padded widths values 0 in Ok (join (txt " | ") cells))%py.

Fixpoint fmt_rows (widths : list nat) (table : list (list json))
  : result (list pystr) :=
  match table with
  | [] => Ok []
  | cells :: rest =>
    (try! line := fmt widths cells in
     try! more := fmt_rows widths rest in
     Ok (line :: more))%py
  end.

Definition format_table (rows : list json) : result pystr :=
  (try! table := data_rows rows in
   try! widths := lens headers in
   try! widths := widen table widths in
   try! head := fmt widths headers in
   let separator :=
     join (txt "-+-") (map (fun width => replicate width 45%N) widths) in
   try! body := fmt_rows widths table in
   Ok (join [10%N] ([head; separator] ++ body)))%py.

(** *** The session *)

(** The parsed command line. *)
Record Namespace := {
  depths : list Z;
  python : pystr
}.

(** [print(s)] *)
Definition print (s : pystr) : M unit :=
  fun w => (Ok tt, log (Print s) w).

(** The inner loop of [main] for one depth: one measurement per target,
    appended to [results]. *)
Fixpoint for_targets (targets : list Target) (depth : Z)
    (python_exec : pystr) (results : list json) : M (list json) :=
  match targets with
  | [] => ret results
  | target :: rest =>
    (measurement <- run_measurement target depth python_exec;;
     for_targets rest depth python_exec (results ++ [measurement]))%py
  end.

(** The outer loop of [main] over the requested depths. *)
Fixpoint for_depths (depths : list Z) (targets : list Target)
    (python_exec : pystr) (results : list json) : M (list json) :=
  match depths with
  | [] => ret results
  | depth :: rest =>
    (results <- for_targets targets depth python_exec results;;
     for_depths rest targets python_exec results)%py
  end.

(** The targets [main] declares. *)
Definition targets : list Target :=
  [ {| name := txt ".NET";
       cwd := joinpath ROOT (txt "dotnet");
       template :=
         [txt "./bin/Release/net10.0/linux-x64/publish/BinaryTrees";
          txt "{n}"];
       env := None |} ].

(** [main], from the parsed command line on ([args] is what [parse_args]
    returned); the [go_env] it computes and never uses is left out. *)
Definition main (args : Namespace) : M Z :=
  (ensure_dotnet_built;;
   results <- for_depths (depths args) targets (python args) [];;
   table <- lift (format_table results);;
   print table;;
   ret 0)%py.

(** Running the script: [raise SystemExit(main())].  An exception that
    nothing catches is reported and ends the process with status 1. *)
Definition script (args : Namespace) (w : world) : Z * world :=
  match main args w with
  | (Ok status, w') => (status, w')
  | (Raise e, w') => (1, log (Traceback e) w')
  end.

End Session.

(** ** The table as its specification words it

    Three columns (language label, workload size, peak memory with two
    decimals), a header row and a separator row; a column is as wide as the
    longest of its header label and its cells; cells are left-justified and
    padded to that width and joined with [" | "]; the separator has one run
    of dashes per column, as long as the column is wide, joined with
    ["-+-"]. *)

Module TableSpec.

Definition cells : Type := pystr * pystr * pystr.

Definition labels : cells :=
  (txt "语言", txt "树深度", txt "峰值 RSS (MB)").

Definition column_width (label : pystr) (column : list pystr) : nat :=
  max_list (length label :: map length column).

Definition widths (rows : list cells) : nat * nat * nat :=
  (column_width labels.1.1 (map (fun r => r.1.1) rows),
   column_width labels.1.2 (map (fun r => r.1.2) rows),
   column_width labels.2 (map (fun r => r.2) rows)).

Definition row_line (ws : nat * nat * nat) (r : cells) : pystr :=
  ljust r.1.1 ws.1.1 ++ txt " | " ++ ljust r.1.2 ws.1.2 ++ txt " | "
  ++ ljust r.2 ws.2.

Definition separator_line (ws : nat * nat * nat) : pystr :=
  replicate ws.1.1 45%N ++ txt "-+-" ++ replicate ws.1.2 45%N
  ++ txt "-+-" ++ replicate ws.2 45%N.

Definition lines (rows : list cells) : list pystr :=
  row_line (widths rows) labels
  :: separator_line (widths rows)
  :: map (row_line (widths rows)) rows.

Definition table (rows : list cells) : pystr := join [10%N] (lines rows).

End TableSpec.

(** The cells of a report row as [format_table] holds them in
    [data_rows]. *)
Definition cells_json (c : TableSpec.cells) : list json :=
  [JStr c.1.1; JStr c.1.2; JStr c.2].


(** The request a result record says it answers: its depth and its
    language label. *)
Definition request_of (data : json) : option (Z * pystr) :=
  match data with
  | JObj members =>
    match members !! txt "depth", members !! txt "language" with
    | Some (JInt depth), Some (JStr language) => Some (depth, language)
    | _, _ => None
    end
  | _ => None
  end.

(** The requests of a session in the order of the specification: sizes in
    the order given, and for each size the targets in declaration order. *)
Definition schedule (sizes : list Z) (targets : list Target)
  : list (Z * pystr) :=
  size ← sizes; target ← targets; [(size, name target)].

(** The requests of a session with their targets, in the order of the
    loops of [main]. *)
Definition requests (sizes : list Z) (targets : list Target)
  : list (Z * Target) :=
  size ← sizes; target ← targets; [(size, target)].

(** [h] is the command line of the helper for the request [q]. *)
Definition asks (ROOT python_exec : pystr) (q : Z * Target)
    (h : list pystr) : Prop :=
  exists path, h = helper_cmd ROOT q.2 q.1 python_exec path.

(** ** The bootstrap script [scripts/bootstrap_env.py] *)

Module Bootstrap.

Section Bootstrap.

(** The surroundings of the script: the repository root, the interpreter
    that runs it ([sys.executable]), the inherited environment and what child
    processes do. *)
Variable ROOT : pystr.
Variable sys_executable : pystr.
Variable os_environ : gmap pystr pystr.
Variable execute :
  world -> list pystr -> option pystr -> gmap pystr pystr
  -> option completed.

Definition VENV : pystr := joinpath ROOT (txt ".venv").

(** The line [run] prints for a command. *)
Definition announcement (cmd : list pystr) (cwd : pystr) : pystr :=
  txt "[bootstrap] " ++ join [32%N] cmd ++ txt " (cwd=" ++ cwd ++ txt ")".

Definition run (cmd : list pystr) (cwd : pystr) : M unit :=
  (print (announcement cmd cwd);;
   subprocess_run os_environ execute false cmd (Some cwd) None;;
   ret tt)%py.

Definition python_in_venv : pystr :=
  joinpath (joinpath VENV (txt "bin")) (txt "python").

Definition ensure_venv : M pystr :=
  (present <- path_exists python_in_venv;;
   (if negb present then
      print (txt "[bootstrap] Creating virtual environment: " ++ VENV);;
      run [sys_executable; txt "-m"; txt "venv"; VENV] ROOT
    else ret tt);;
   ret python_in_venv)%py.

Definition main : M Z :=
  (venv_python <- ensure_venv;;
   run [venv_python; txt "-m"; txt "pip"; txt "install"; txt "-r";
        txt "requirements.txt"] (joinpath ROOT (txt "python"));;
   run [txt "npm"; txt "install"] (joinpath ROOT (txt "nodejs"));;
   run [txt "go"; txt "mod"; txt "download"] (joinpath ROOT (txt "go"));;
   run [txt "cargo"; txt "fetch"] (joinpath ROOT (txt "rust"));;
   ret 0)%py.

(** Running the script: [raise SystemExit(main())]. *)
Definition script (w : world) : Z * world :=
  match main w with
  | (Ok status, w') => (status, w')
  | (Raise e, w') => (1, log (Traceback e) w')
  end.

(** The four install steps of [main], as pairs of a command and the
    directory it runs in. *)
Definition installs : list (list pystr * pystr) :=
  [([python_in_venv; txt "-m"; txt "pip"; txt "install"; txt "-r";
     txt "requirements.txt"], joinpath ROOT (txt "python"));
   ([txt "npm"; txt "install"], joinpath ROOT (txt "nodejs"));
   ([txt "go"; txt "mod"; txt "download"], joinpath ROOT (txt "go"));
   ([txt "cargo"; txt "fetch"], joinpath ROOT (txt "rust"))].

(** What the script itself does for one step: it announces the command,
    then starts it. *)
Definition step_actions (step : list pystr * pystr) : list event :=
  [Print (announcement step.1 step.2);
   Spawn step.1 (Some step.2) os_environ].

(** Steps run one after the other, as [main] runs its install steps. *)
Fixpoint run_steps (steps : list (list pystr * pystr)) : M unit :=
  match steps with
  | [] => ret tt
  | step :: rest => (run step.1 step.2;; run_steps rest)%py
  end.

End Bootstrap.

End Bootstrap.

(** What the session itself did, in order: the lines it printed and the
    children it started, without what the children wrote. *)
Definition actions (w : world) : list event :=
  omap (fun ev => match ev with
                  | Print _ | Spawn _ _ _ => Some ev
                  | _ => None
                  end) (events w).

(** ** Concrete surroundings, for the examples *)

Module Example.

(** A JSON text written with apostrophes in place of double quotes. *)
Definition quoted (s : string) : list byte :=
  map (fun b => if Byte.eqb b "'"%byte then x22 else b)
      (list_byte_of_string s).

Definition ROOT : pystr := txt "/repo".
Definition home : pystr := txt "/home/user".
Definition os_environ : gmap pystr pystr :=
  {[ txt "PATH" := txt "/usr/bin" ]}.

(** Temporary names are numbered by the events seen so far. *)
Definition temp_name (w : world) : pystr :=
  txt "/tmp/tmp" ++ str_of_int (Z.of_nat (length (events w))).

Definition exits (status : Z) (out err : pystr) (w : world) : completed :=
  {| returncode := status; stdout := out; stderr := err;
     files_after := files w |}.

(** Every child succeeds; a measurement helper (recognised by its
    [--json-file] option) writes [content] to its result file, or leaves
    the file alone when there is no content. *)
Definition helper_writes (content : option (list byte)) (w : world)
    (cmd : list pystr) (dir : option pystr) (environ : gmap pystr pystr)
  : option completed :=
  match cmd !! 4%nat, cmd !! 5%nat, content with
  | Some opt, Some path, Some bytes =>
    if decide (opt = txt "--json-file")
    then Some {| returncode := 0; stdout := []; stderr := [];
                 files_after := <[path := bytes]> (files w) |}
    else Some (exits 0 [] [] w)
  | _, _, _ => Some (exits 0 [] [] w)
  end.

(** The build fails with a compiler message on its standard error. *)
Definition build_fails (w : world) (cmd : list pystr)
    (dir : option pystr) (environ : gmap pystr pystr)
  : option completed :=
  Some (exits 1 (txt "Build FAILED.") (txt "error CS1002: ; expected") w).

Definition repr_other (v : json) : pystr := txt "?".

Definition w0 : world := {| files := ∅; events := [] |}.

Definition target (label : string) : Target :=
  {| name := txt label; cwd := txt "/repo/x";
     template := [txt "./run"; txt "{n}"]; env := None |}.

Definition row (label : string) (depth : Z) (peak_mb : json) : json :=
  JObj {[ txt "language" := JStr (txt label); txt "depth" := JInt depth;
          txt "peak_mb" := peak_mb ]}.

Definition py : pystr := txt "python3".

(** One request against a helper that writes [content]. *)
Definition measure (content : option (list byte)) (t : Target)
    (depth : Z) : M json :=
  run_measurement ROOT os_environ temp_name (helper_writes content)
    t depth py.

(** The measurement loops against a helper that writes [content]. *)
Definition measure_all (content : option (list byte)) (sizes : list Z)
    (ts : list Target) : M (list json) :=
  for_depths ROOT os_environ temp_name (helper_writes content)
    sizes ts py [].

(** A whole session. *)
Definition session
    (execute : world -> list pystr -> option pystr -> gmap pystr pystr
               -> option completed)
    (sizes : list Z) : Z * world :=
  script ROOT os_environ temp_name execute repr_other
    {| depths := sizes; python := py |} w0.

(** No child can be started. *)
Definition cannot_start (w : world) (cmd : list pystr) (dir : option pystr)
    (environ : gmap pystr pystr) : option completed :=
  None.

(** Every child exits with status 0, except the one whose command begins
    with [name], which exits with status 1. *)
Definition fails_at (name : string) (w : world) (cmd : list pystr)
    (dir : option pystr) (environ : gmap pystr pystr) : option completed :=
  if decide (head cmd = Some (txt name)) then Some (exits 1 [] [] w)
  else Some (exits 0 [] [] w).

(** A request against an arbitrary child behaviour. *)
Definition measure_with
    (execute : world -> list pystr -> option pystr -> gmap pystr pystr
               -> option completed)
    (t : Target) (depth : Z) : M json :=
  run_measurement ROOT os_environ temp_name execute t depth py.

(** The bootstrap script against an arbitrary child behaviour. *)
Definition bootstrap
    (execute : world -> list pystr -> option pystr -> gmap pystr pystr
               -> option completed) : Z * world :=
  Bootstrap.script ROOT py os_environ execute w0.

Definition value_or {A} (r : result A) (d : A) : A :=
  match r with
  | Ok a => a
  | Raise _ => d
  end.

End Example.

(** * Properties *)

(** ** The JSON scanner never runs out of budget *)

Module JsonFacts.
Import Json.

Lemma skip_ws_length (s : pystr) : (length (skip_ws s) <= length s)%nat.
Proof.
  induction s as [|c r IH]; cbn [skip_ws]; [lia|].
  destruct (is_ws c); cbn [length]; lia.
Qed.

Lemma starts_length (c : N) (s r : pystr) :
  starts c s = Some r -> length s = S (length r).
Proof.
  destruct s as [|x s']; cbn [starts]; [discriminate|].
  destruct (x =? c)%N; [|discriminate]. by intros [= ->].
Qed.

Lemma span_digits_length (s : pystr) :
  (length (span_digits s).2 <= length s)%nat.
Proof.
  induction s as [|c r IH]; cbn [span_digits]; [cbn; lia|].
  destruct (is_digit c); [|cbn; lia].
  destruct (span_digits r) as [ds r']; cbn in *; lia.
Qed.

Lemma strip_prefix_length (p s r : pystr) :
  strip_prefix p s = Some r -> length s = (length p + length r)%nat.
Proof.
  revert s; induction p as [|a p IH]; intros s; cbn [strip_prefix].
  - by intros [= ->].
  - destruct s as [|b s]; [discriminate|].
    destruct (a =? b)%N; [|discriminate].
    intros H. apply IH in H. cbn [length]. lia.
Qed.

Lemma scanstring_length (n : nat) (s acc str r : pystr) :
  (length s <= n)%nat -> scanstring s acc = Scanned str r ->
  (length r < length s)%nat.
Proof.
  revert s acc; induction n as [|n IH]; intros s acc Hn.
  { destruct s; [cbn; discriminate | cbn in Hn; lia]. }
  destruct s as [|c s]; cbn [scanstring]; [discriminate|].
  cbn [length] in *.
  destruct (c =? 34)%N; [intros [= _ ->]; lia|].
  destruct (c =? 92)%N.
  2:{ destruct (c <=? 31)%N; [discriminate|].
      intros H. apply IH in H; lia. }
  destruct s as [|e r1]; [discriminate|]. cbn [length] in *.
  destruct (e =? 117)%N.
  2:{ destruct (simple_escape e); [|discriminate].
      intros H. apply IH in H; lia. }
  destruct r1 as [|h1 [|h2 [|h3 [|h4 r5]]]]; try discriminate.
  cbn [length] in *.
  destruct (hex4 h1 h2 h3 h4); [|discriminate].
  assert (Hr5 : forall a, scanstring r5 a = Scanned str r ->
                          (length r < S (S (S (S (S (S (length r5)))))))%nat).
  { intros a H. apply IH in H; lia. }
  destruct r5 as [|b [|u [|l1 [|l2 [|l3 [|l4 r11]]]]]]; try apply Hr5.
  destruct (hex4 l1 l2 l3 l4); [|apply Hr5].
  destruct (_ && _); [|apply Hr5].
  intros H. apply IH in H; cbn [length] in *; lia.
Qed.

Lemma scanstring_not_starved (s acc : pystr) :
  scanstring s acc <> Starved.
Proof.
  remember (length s) as n eqn:Hn.
  assert (Hle : (length s <= n)%nat) by lia. clear Hn.
  revert s acc Hle; induction n as [|n IH]; intros s acc Hn.
  { destruct s; [cbn; discriminate | cbn in Hn; lia]. }
  destruct s as [|c s]; cbn [scanstring]; [discriminate|].
  cbn [length] in *.
  destruct (c =? 34)%N; [discriminate|].
  destruct (c =? 92)%N.
  2:{ destruct (c <=? 31)%N; [discriminate|]. apply IH; lia. }
  destruct s as [|e r1]; [discriminate|]. cbn [length] in *.
  destruct (e =? 117)%N.
  2:{ destruct (simple_escape e); [|discriminate]. apply IH; lia. }
  destruct r1 as [|h1 [|h2 [|h3 [|h4 r5]]]]; try discriminate.
  cbn [length] in *.
  destruct (hex4 h1 h2 h3 h4); [|discriminate].
  assert (Hr5 : forall a, scanstring r5 a <> Starved)
    by (intros a; apply IH; lia).
  destruct r5 as [|b [|u [|l1 [|l2 [|l3 [|l4 r11]]]]]]; try apply Hr5.
  destruct (hex4 l1 l2 l3 l4); [|apply Hr5].
  destruct (_ && _); [|apply Hr5].
  apply IH; cbn [length] in *; lia.
Qed.

Lemma span_digits_snd (s ds r : pystr) :
  span_digits s = (ds, r) -> (length r <= length s)%nat.
Proof. intros H. pose proof (span_digits_length s) as L. by rewrite H in L. Qed.

Lemma scan_int_part_length (s ip r : pystr) :
  scan_int_part s = Some (ip, r) -> (length r < length s)%nat.
Proof.
  destruct s as [|d s']; cbn [scan_int_part]; [discriminate|].
  destruct (d =? 48)%N; [intros [= _ ->]; cbn; lia|].
  destruct (is_digit d); [|discriminate].
  destruct (span_digits s') as [ds r'] eqn:E. intros [= _ ->].
  apply span_digits_snd in E. cbn; lia.
Qed.

Lemma scan_fraction_length (s fs r : pystr) :
  scan_fraction s = (fs, r) -> (length r <= length s)%nat.
Proof.
  unfold scan_fraction. destruct (starts 46 s) as [t|] eqn:E.
  - apply starts_length in E.
    destruct (span_digits t) as [[|f fs'] r'] eqn:E'; intros [= _ <-];
      [lia|]. apply span_digits_snd in E'. lia.
  - intros [= _ <-]. lia.
Qed.

Lemma scan_exponent_length (s r : pystr) (expo : option (bool * pystr)) :
  scan_exponent s = (expo, r) -> (length r <= length s)%nat.
Proof.
  destruct s as [|e s']; cbn [scan_exponent]; [intros [= _ <-]; lia|].
  destruct (_ || _); [|intros [= _ <-]; lia].
  assert (H : exists b t, (match starts 43 s', starts 45 s' with
                 | Some t, _ => (false, t)
                 | None, Some t => (true, t)
                 | None, None => (false, s')
                 end) = (b, t) /\ (length t <= length s')%nat).
  { destruct (starts 43 s') as [t|] eqn:E1.
    - apply starts_length in E1. eexists _, _; split; [done | lia].
    - destruct (starts 45 s') as [t|] eqn:E2.
      + apply starts_length in E2. eexists _, _; split; [done | lia].
      + eexists _, _; split; [done | lia]. }
  destruct H as (b & t & -> & Ht).
  destruct (span_digits t) as [[|d ds] r'] eqn:E'; intros [= _ <-];
    [lia|]. apply span_digits_snd in E'. cbn [length]. lia.
Qed.

Lemma scan_number_length (s r : pystr) (v : json) :
  scan_number s = Some (v, r) -> (length r < length s)%nat.
Proof.
  unfold scan_number.
  assert (H : exists b s1, (match starts 45 s with
                 | Some r => (true, r)
                 | None => (false, s)
                 end) = (b, s1) /\ (length s1 <= length s)%nat).
  { destruct (starts 45 s) as [t|] eqn:E.
    - apply starts_length in E. eexists _, _; split; [done | lia].
    - eexists _, _; split; [done | lia]. }
  destruct H as (b & s1 & -> & Hs1).
  destruct (scan_int_part s1) as [[ip r1]|] eqn:E1; [|discriminate].
  destruct (scan_fraction r1) as [fs r2] eqn:E2.
  destruct (scan_exponent r2) as [ex r3] eqn:E3.
  intros [= _ <-].
  apply scan_int_part_length in E1. apply scan_fraction_length in E2.
  apply scan_exponent_length in E3. lia.
Qed.

Lemma literal_length (word : string) (v v' : json) (s r : pystr) :
  (0 < length (txt word))%nat ->
  literal word v s = Scanned v' r -> (length r < length s)%nat.
Proof.
  unfold literal. intros Hw.
  destruct (strip_prefix (txt word) s) as [t|] eqn:E; [|discriminate].
  intros [= _ <-]. apply strip_prefix_length in E. lia.
Qed.

Lemma literal_not_starved (word : string) (v : json) (s : pystr) :
  literal word v s <> Starved.
Proof. unfold literal. by destruct (strip_prefix _ _). Qed.

(** With a budget above twice the length of the input no scan is starved,
    and every scan that succeeds consumes some input. *)
Lemma scan_fed (fuel : nat) :
  (forall s, (2 * length s < fuel)%nat -> fed (scan_once fuel s) s)
  /\ (forall s acc, (2 * length s < fuel)%nat ->
                    fed (parse_members fuel s acc) s)
  /\ (forall s acc, (2 * length s + 1 < fuel)%nat ->
                    fed (parse_items fuel s acc) s).
Proof.
  induction fuel as [|fuel (IHv & IHm & IHi)];
    [repeat split; intros; lia|].
  split; [|split].
  - intros [|c r] Hlen; cbn [scan_once]; [by split|].
    cbn [length] in Hlen. pose proof (skip_ws_length r) as Hws.
    destruct (c =? 34)%N.
    { destruct (scanstring r []) as [str r'| |] eqn:E.
      - split; [done|]. intros v r0 [= _ <-].
        apply (scanstring_length _ _ _ _ _ (Nat.le_refl _)) in E.
        cbn [length]; lia.
      - by split.
      - by apply scanstring_not_starved in E. }
    destruct (c =? 123)%N.
    { destruct (starts 125 (skip_ws r)) as [r'|] eqn:E.
      - apply starts_length in E. split; [done|].
        intros v r0 [= _ <-]. cbn [length]; lia.
      - destruct (IHm (skip_ws r) ∅) as [H1 H2]; [lia|]. split; [done|].
        intros v r0 H. apply H2 in H. cbn [length]; lia. }
    destruct (c =? 91)%N.
    { destruct (starts 93 (skip_ws r)) as [r'|] eqn:E.
      - apply starts_length in E. split; [done|].
        intros v r0 [= _ <-]. cbn [length]; lia.
      - destruct (IHi (skip_ws r) []) as [H1 H2]; [lia|]. split; [done|].
        intros v r0 H. apply H2 in H. cbn [length]; lia. }
    repeat match goal with
    | |- fed (if ?b then _ else _) _ => destruct b
    | |- fed (literal ?w ?v ?s) _ =>
      split; [apply literal_not_starved
             | intros v' r'; apply literal_length; vm_compute; lia]
    end.
    destruct (strip_prefix _ _) as [r'|] eqn:E.
    { apply strip_prefix_length in E.
      assert (Hw : length (txt "-Infinity") = 9%nat) by (vm_compute; done).
      rewrite Hw in E. split; [done|]. intros v r0 [= _ <-]. lia. }
    destruct (scan_number (c :: r)) as [[v r']|] eqn:E'; [|by split].
    apply scan_number_length in E'. split; [done|].
    by intros v0 r0 [= _ <-].
  - intros s acc Hlen; cbn [parse_members].
    destruct (starts 34 s) as [r|] eqn:E0; [|by split].
    apply starts_length in E0.
    destruct (scanstring r []) as [key r1| |] eqn:E1; [|by split|].
    2:{ by apply scanstring_not_starved in E1. }
    apply (scanstring_length _ _ _ _ _ (Nat.le_refl _)) in E1.
    pose proof (skip_ws_length r1) as Hws1.
    destruct (starts 58 (skip_ws r1)) as [r2|] eqn:E2; [|by split].
    apply starts_length in E2. pose proof (skip_ws_length r2) as Hws2.
    destruct (IHv (skip_ws r2)) as [H1 H2]; [lia|].
    destruct (scan_once fuel (skip_ws r2)) as [v r3| |] eqn:E3;
      [|by split|done].
    specialize (H2 _ _ eq_refl). pose proof (skip_ws_length r3) as Hws3.
    destruct (starts 125 (skip_ws r3)) as [r4|] eqn:E4.
    { apply starts_length in E4. split; [done|].
      intros v0 r0 [= _ <-]. lia. }
    destruct (starts 44 (skip_ws r3)) as [r4|] eqn:E5; [|by split].
    apply starts_length in E5. pose proof (skip_ws_length r4) as Hws4.
    destruct (IHm (skip_ws r4) (<[key:=v]> acc)) as [H3 H4]; [lia|].
    split; [done|]. intros v0 r0 H. apply H4 in H. lia.
  - intros s acc Hlen; cbn [parse_items].
    destruct (IHv s) as [H1 H2]; [lia|].
    destruct (scan_once fuel s) as [v r1| |] eqn:E1; [|by split|done].
    specialize (H2 _ _ eq_refl). pose proof (skip_ws_length r1) as Hws1.
    destruct (starts 93 (skip_ws r1)) as [r2|] eqn:E2.
    { apply starts_length in E2. split; [done|].
      intros v0 r0 [= _ <-]. lia. }
    destruct (starts 44 (skip_ws r1)) as [r2|] eqn:E3; [|by split].
    apply starts_length in E3. pose proof (skip_ws_length r2) as Hws2.
    destruct (IHi (skip_ws r2) (acc ++ [v])) as [H3 H4]; [lia|].
    split; [done|]. intros v0 r0 H. apply H4 in H. lia.
Qed.

(** [loads] gives the scanner all the budget it needs: a [None] is always
    a syntax error. *)
Lemma loads_fed (s : pystr) :
  scan_once (S (2 * length s)) (skip_ws s) <> Starved.
Proof.
  pose proof (skip_ws_length s).
  apply (proj1 (scan_fed (S (2 * length s)))). lia.
Qed.

End JsonFacts.
(** *** Facts about [str_of_int] and [command] *)

Lemma dec_value_acc (u : Decimal.uint) (acc : positive) :
  fold_left (fun a d => (10 * a + (d - 48))%N) (digits u) (Npos acc)
  = Npos (Pos.of_uint_acc u acc).
Proof.
  revert acc; induction u; intros acc; cbn [digits fold_left Pos.of_uint_acc];
    try rewrite <- IHu; try reflexivity; f_equal; lia.
Qed.

Lemma dec_value_digits (u : Decimal.uint) :
  dec_value (digits u) = Pos.of_uint u.
Proof.
  unfold dec_value.
  induction u; cbn [digits fold_left Pos.of_uint]; try reflexivity;
    try exact IHu; apply dec_value_acc.
Qed.

(** [str_of_int] writes the decimal numeral of its argument: the digits
    after the optional sign read back, in base ten, as the magnitude. *)
Lemma str_of_int_decimal (n : Z) :
  (0 <= n -> Z.of_N (dec_value (str_of_int n)) = n) /\
  (n < 0 -> exists ds, str_of_int n = 45%N :: ds
                       /\ Z.of_N (dec_value ds) = - n).
Proof.
  unfold str_of_int. pose proof (DecimalZ.of_to n) as Hn.
  destruct (Z.to_int n) as [u|u] eqn:Hu; cbn [Z.of_int] in Hn;
    unfold Z.of_uint in Hn; rewrite <- dec_value_digits in Hn.
  - split; [intros _; exact Hn | lia].
  - split; [intros Hpos | intros _; exists (digits u); split; [done | lia]].
    destruct n; try lia; cbn in Hu; discriminate.
Qed.

Lemma command_loop (depth : Z) (tokens : list pystr) (acc : list pystr) :
  fold_left
    (fun cmd token =>
       if decide (token = placeholder) then cmd ++ [str_of_int depth]
       else cmd ++ [token])
    tokens acc
  = acc ++ map (fun token => if decide (token = placeholder)
                             then str_of_int depth else token) tokens.
Proof.
  revert acc; induction tokens as [|t ts IH]; intros acc; cbn [fold_left map].
  - by rewrite app_nil_r.
  - rewrite IH. destruct (decide (t = placeholder)); by rewrite <- app_assoc.
Qed.

(** C2.  For every target and every depth, [command] returns the template
    with each token equal to the placeholder ["{n}"] replaced by the decimal
    numeral of the depth and every other token unchanged, in the original
    order and number. *)
Theorem command_substitutes (T : Target) (D : Z) :
  placeholder = [123; 110; 125]%N
  /\ command T D
     = map (fun token => if decide (token = placeholder)
                         then str_of_int D else token) (template T)
  /\ length (command T D) = length (template T).
Proof.
  assert (E : command T D
              = map (fun token => if decide (token = placeholder)
                                  then str_of_int D else token) (template T))
    by apply (command_loop D (template T) []).
  split; [by vm_compute|]. split; [exact E|].
  rewrite E. apply length_map.
Qed.

Example command_three_placeholders :
  command {| name := txt "T"; cwd := txt "/";
             template := [txt "{n}"; txt "run"; txt "{n}"; txt "{n} ";
                          txt "{n}"];
             env := None |} (-7)
  = [txt "-7"; txt "run"; txt "-7"; txt "{n} "; txt "-7"].
Proof. by vm_compute. Qed.

(** ** One measurement *)

Section MeasurementFacts.

Variable ROOT : pystr.
Variable os_environ : gmap pystr pystr.
Variable temp_name : world -> pystr.
Variable execute :
  world -> list pystr -> option pystr -> gmap pystr pystr
  -> option completed.

Local Abbreviation measure :=
  (run_measurement ROOT os_environ temp_name execute).
Local Abbreviation helper_cmd := (helper_cmd ROOT).
Local Abbreviation helper_env := (helper_env os_environ).

(** What a request does once the helper has exited with status 0,
    according to the result file the helper left. *)
Lemma run_measurement_exit_0 (target : Target) (depth : Z)
    (python_exec : pystr) (w : world) (p : completed) :
  let path := temp_name w in
  let cmd := helper_cmd target depth python_exec path in
  let environ := helper_env target in
  let w' := fun fs =>
    {| files := fs;
       events := events w ++ [Spawn cmd None environ;
                              ChildOutput (stdout p) (stderr p)] |} in
  execute (created path w) cmd None environ = Some p ->
  returncode p = 0 ->
  measure target depth python_exec w =
  match files_after p !! path with
  | None => (Raise (missing_result_file target depth), w' (files_after p))
  | Some content =>
    match decode_text content with
    | None => (Raise UnicodeDecodeError, w' (files_after p))
    | Some text =>
      let left := w' (delete path (files_after p)) in
      match Json.loads (strip text) with
      | None => (Raise JSONDecodeError, left)
      | Some (JObj members) => (Ok (decorated target depth members), left)
      | Some _ => (Raise TypeError, left)
      end
    end
  end.
Proof.
  intros path cmd environ w' Hexec Hcode.
  unfold run_measurement, bind, NamedTemporaryFile, subprocess_run.
  fold path. cbn [default]. unfold id.
  fold cmd environ. rewrite Hexec, Hcode. cbn [Z.eqb].
  match goal with
  | |- context [path_exists path ?W] =>
    replace W with (w' (files_after p))
      by (unfold w', log, created; cbn [files events];
          by rewrite <- app_assoc)
  end.
  unfold path_exists, read_text, unlink, raise, lift, ret.
  subst w'; cbn [files events].
  destruct (files_after p !! path) as [content|] eqn:Hfile.
  - rewrite bool_decide_eq_true_2 by eauto. cbn [negb files events].
    rewrite Hfile.
    destruct (decode_text content) as [text|]; [|reflexivity].
    cbn [files events]. rewrite Hfile.
    destruct (Json.loads (strip text)) as [[]|]; reflexivity.
  - rewrite bool_decide_eq_false_2; [reflexivity | by intros [? [=]]].
Qed.

Lemma run_measurement_not_started (target : Target) (depth : Z)
    (python_exec : pystr) (w : world) :
  let path := temp_name w in
  let cmd := helper_cmd target depth python_exec path in
  let environ := helper_env target in
  execute (created path w) cmd None environ = None ->
  measure target depth python_exec w =
  (Raise OSError,
   {| files := <[path := []]> (files w);
      events := events w ++ [Spawn cmd None environ] |}).
Proof.
  intros path cmd environ Hexec.
  unfold run_measurement, bind, NamedTemporaryFile, subprocess_run.
  fold path. cbn [default]. unfold id.
  fold cmd environ. by rewrite Hexec.
Qed.

Lemma run_measurement_exit_nonzero (target : Target) (depth : Z)
    (python_exec : pystr) (w : world) (p : completed) :
  let path := temp_name w in
  let cmd := helper_cmd target depth python_exec path in
  let environ := helper_env target in
  execute (created path w) cmd None environ = Some p ->
  returncode p <> 0 ->
  measure target depth python_exec w =
  (Raise (CalledProcessError (returncode p) cmd None None),
   {| files := files_after p;
      events := events w ++ [Spawn cmd None environ;
                             ChildOutput (stdout p) (stderr p)] |}).
Proof.
  intros path cmd environ Hexec Hcode.
  unfold run_measurement, bind, NamedTemporaryFile, subprocess_run.
  fold path. cbn [default]. unfold id.
  fold cmd environ. rewrite Hexec.
  destruct (Z.eqb_spec (returncode p) 0) as [|_]; [done|].
  unfold log, created; cbn [files events]. by rewrite <- app_assoc.
Qed.

(** A request that returns has gone through every step of the protocol. *)
Lemma run_measurement_ok_inv (target : Target) (depth : Z)
    (python_exec : pystr) (w wf : world) (data : json) :
  let path := temp_name w in
  let cmd := helper_cmd target depth python_exec path in
  let environ := helper_env target in
  measure target depth python_exec w = (Ok data, wf) ->
  exists p content text members,
    execute (created path w) cmd None environ = Some p
    /\ returncode p = 0
    /\ files_after p !! path = Some content
    /\ decode_text content = Some text
    /\ Json.loads (strip text) = Some (JObj members)
    /\ data = decorated target depth members
    /\ files wf = delete path (files_after p)
    /\ events wf = events w ++ [Spawn cmd None environ;
                                ChildOutput (stdout p) (stderr p)].
Proof.
  intros path cmd environ Hrun.
  destruct (execute (created path w) cmd None environ) as [p|] eqn:Hexec.
  2:{ by rewrite run_measurement_not_started in Hrun. }
  destruct (decide (returncode p = 0)) as [Hcode|Hcode].
  2:{ by rewrite (run_measurement_exit_nonzero _ _ _ _ p) in Hrun. }
  rewrite (run_measurement_exit_0 _ _ _ _ p Hexec Hcode) in Hrun.
  fold path in Hrun.
  destruct (files_after p !! path) as [content|] eqn:Hfile; [|done].
  destruct (decode_text content) as [text|] eqn:Htext; [|done].
  cbv zeta in Hrun.
  destruct (Json.loads (strip text)) as [[]|] eqn:Hload; try done.
  injection Hrun as <- <-.
  by exists p, content, text, members.
Qed.

(** C8.  Every successful measurement request returns the object parsed
    from the result file the helper left, decorated with [language] equal
    to the name of the target and [depth] equal to the requested depth,
    and with [peak_mb] as the helper emitted it. *)
Theorem run_measurement_decorates (target : Target) (depth : Z)
    (python_exec : pystr) (w wf : world) (data : json) :
  measure target depth python_exec w = (Ok data, wf) ->
  exists p content text members result,
    execute (created (temp_name w) w)
      (helper_cmd target depth python_exec (temp_name w)) None
      (helper_env target) = Some p
    /\ files_after p !! temp_name w = Some content
    /\ decode_text content = Some text
    /\ Json.loads (strip text) = Some (JObj members)
    /\ data = JObj result
    /\ result !! txt "language" = Some (JStr (name target))
    /\ result !! txt "depth" = Some (JInt depth)
    /\ result !! txt "peak_mb" = members !! txt "peak_mb".
Proof.
  intros Hrun. apply run_measurement_ok_inv in Hrun.
  destruct Hrun as (p & content & text & members & Hexec & _ & Hfile
                    & Htext & Hload & -> & _).
  exists p, content, text, members. eexists.
  repeat split; try done.
  - rewrite lookup_insert_ne by (by vm_compute). apply lookup_insert_eq.
  - apply lookup_insert_eq.
  - by rewrite !lookup_insert_ne by (by vm_compute).
Qed.

(** C10.  Whatever the object written by the helper holds under the keys
    [language] and [depth], the returned object holds the name of the
    target and the requested depth there, and under every other key what
    the helper wrote. *)
Theorem run_measurement_overwrites (target : Target) (depth : Z)
    (python_exec : pystr) (w wf : world) (data : json) :
  measure target depth python_exec w = (Ok data, wf) ->
  exists p content text members result,
    execute (created (temp_name w) w)
      (helper_cmd target depth python_exec (temp_name w)) None
      (helper_env target) = Some p
    /\ files_after p !! temp_name w = Some content
    /\ decode_text content = Some text
    /\ Json.loads (strip text) = Some (JObj members)
    /\ data = JObj result
    /\ forall key,
         result !! key =
         if decide (key = txt "language") then Some (JStr (name target))
         else if decide (key = txt "depth") then Some (JInt depth)
         else members !! key.
Proof.
  intros Hrun. apply run_measurement_ok_inv in Hrun.
  destruct Hrun as (p & content & text & members & Hexec & _ & Hfile
                    & Htext & Hload & -> & _).
  exists p, content, text, members. eexists.
  repeat split; try done. intros key.
  destruct (decide (key = txt "language")) as [->|Hl].
  { rewrite lookup_insert_ne by (by vm_compute). apply lookup_insert_eq. }
  destruct (decide (key = txt "depth")) as [->|Hd].
  { apply lookup_insert_eq. }
  by rewrite !lookup_insert_ne.
Qed.

(** C9.  After a successful measurement request the temporary result file
    no longer exists; and deleting with [missing_ok] a file that is
    already gone returns normally and changes nothing. *)
Theorem temporary_file_removed :
  (forall target depth python_exec w wf data,
      measure target depth python_exec w = (Ok data, wf) ->
      files wf !! temp_name w = None)
  /\ (forall path w,
        files w !! path = None -> unlink true path w = (Ok tt, w)).
Proof.
  split.
  - intros target depth python_exec w wf data Hrun.
    apply run_measurement_ok_inv in Hrun.
    destruct Hrun as (p & ? & ? & ? & _ & _ & _ & _ & _ & _ & -> & _).
    apply lookup_delete_eq.
  - intros path w Hgone. unfold unlink. by rewrite Hgone.
Qed.

(** When the result file is absent after the helper has exited with
    status 0, the request raises the missing-result-file error. *)
Lemma absent_file_is_reported (target : Target) (depth : Z)
    (python_exec : pystr) (w : world) (p : completed) :
  execute (created (temp_name w) w)
    (helper_cmd target depth python_exec (temp_name w)) None
    (helper_env target) = Some p ->
  returncode p = 0 ->
  files_after p !! temp_name w = None ->
  (measure target depth python_exec w).1
  = Raise (missing_result_file target depth).
Proof.
  intros Hexec Hcode Hgone.
  rewrite (run_measurement_exit_0 _ _ _ _ p Hexec Hcode). cbv zeta.
  by rewrite Hgone.
Qed.

(** C1, at the failing input.  A helper that exits with status 0 and has
    not written the result file leaves the empty file that
    [NamedTemporaryFile] created, so the existence test passes and the
    request fails in [json.loads], with [JSONDecodeError]: it returns no
    record, but the error is not the missing-result-file error. *)
Theorem silent_helper_outcome (target : Target) (depth : Z)
    (python_exec : pystr) (w : world) (p : completed) :
  execute (created (temp_name w) w)
    (helper_cmd target depth python_exec (temp_name w)) None
    (helper_env target) = Some p ->
  returncode p = 0 ->
  files_after p !! temp_name w
  = files (created (temp_name w) w) !! temp_name w ->
  (measure target depth python_exec w).1 = Raise JSONDecodeError
  /\ Raise JSONDecodeError
     <> (Raise (missing_result_file target depth) : result json).
Proof.
  intros Hexec Hcode Hsame. split; [|done].
  rewrite (run_measurement_exit_0 _ _ _ _ p Hexec Hcode). cbv zeta.
  rewrite Hsame. unfold created; cbn [files]. rewrite lookup_insert_eq.
  reflexivity.
Qed.

End MeasurementFacts.

(** ** Two decimals *)

(** The integer [round_half_even] picks is within one half of the
    quotient. *)
Lemma round_half_even_near (num den : Z) :
  0 < den ->
  2 * Z.abs (num - Float.round_half_even num den * den) <= den.
Proof.
  intros Hden. unfold Float.round_half_even.
  pose proof (Z.div_mod num den ltac:(lia)) as Hdm.
  pose proof (Z.mod_pos_bound num den Hden) as Hmod.
  destruct (Z.compare_spec (2 * (num mod den)) den) as [Heq|Hlt|Hgt];
    [destruct (Z.even (num / den))| |]; nia.
Qed.

(** A float that is a number is written with a point and two digits after
    it. *)
Lemma format_2f_two_decimals (x : spec_float) :
  x <> S754_nan -> (forall s, x <> S754_infinity s) ->
  exists whole a b,
    Float.format_2f x = whole ++ [46%N; a; b]
    /\ (48 <= a <= 57)%N /\ (48 <= b <= 57)%N.
Proof.
  intros Hnan Hinf. destruct x as [s|s| |s m e];
    [|by destruct (Hinf s)|done|].
  - exists (Float.sign s ++ [48%N]), 48%N, 48%N.
    split; [by destruct s | lia].
  - clear. cbn [Float.format_2f].
    set (q := match e with Zneg k => _ | _ => _ end).
    exists (Float.sign s ++ str_of_int (q / 100)),
      (Z.to_N (48 + q mod 100 / 10)), (Z.to_N (48 + q mod 100 mod 10)).
    split; [by rewrite <- !app_assoc|].
    pose proof (Z.mod_pos_bound q 100 ltac:(lia)) as Hq.
    pose proof (Z.mod_pos_bound (q mod 100) 10 ltac:(lia)).
    assert (0 <= q mod 100 / 10 <= 9).
    { split; [apply Z.div_pos; lia|].
      apply Z.lt_succ_r, Z.div_lt_upper_bound; lia. }
    lia.
Qed.

(** ** The table *)

Section TableFacts.

Variable repr_other : json -> pystr.

Local Abbreviation reported := (report_row repr_other).
Local Abbreviation render := (format_table repr_other).

Lemma data_row_report (row : json) (c : TableSpec.cells) :
  reported row = Some c -> data_row repr_other row = Ok (cells_json c).
Proof.
  unfold report_row, data_row, getitem, rbind.
  destruct row as [| | | | | |members]; try discriminate.
  destruct (members !! txt "language") as [[| | | |language| |]|];
    try discriminate.
  destruct (members !! txt "depth") as [depth|]; [|discriminate].
  destruct (members !! txt "peak_mb") as [peak_mb|]; [|discriminate].
  destruct (format_2f peak_mb) as [text|]; [|discriminate].
  by intros [= <-].
Qed.

Lemma data_rows_report (rows : list json) (cs : list TableSpec.cells) :
  Forall2 (fun row c => reported row = Some c) rows cs ->
  data_rows repr_other rows = Ok (map cells_json cs).
Proof.
  induction 1 as [|row c rows cs Hrow _ IH]; [done|].
  cbn [data_rows map]. rewrite (data_row_report _ _ Hrow).
  cbn [rbind]. by rewrite IH.
Qed.

Lemma widen_row_cells (c : TableSpec.cells) (a b d : nat) :
  widen_row (cells_json c) 0 [a; b; d]
  = Ok [Nat.max a (length c.1.1); Nat.max b (length c.1.2);
        Nat.max d (length c.2)].
Proof. reflexivity. Qed.

Lemma max_list_acc (a : nat) (l : list nat) :
  fold_left Nat.max l a = max_list (a :: l).
Proof.
  revert a; induction l as [|x l IH]; intros a; cbn [fold_left].
  - simpl. lia.
  - rewrite IH. simpl. lia.
Qed.

Lemma widen_cells (cs : list TableSpec.cells) (a b d : nat) :
  widen (map cells_json cs) [a; b; d]
  = Ok [fold_left Nat.max (map (fun c => length c.1.1) cs) a;
        fold_left Nat.max (map (fun c => length c.1.2) cs) b;
        fold_left Nat.max (map (fun c => length c.2) cs) d].
Proof.
  revert a b d; induction cs as [|c cs IH]; intros a b d; [done|].
  cbn [map widen]. rewrite widen_row_cells. cbn [rbind fold_left].
  apply IH.
Qed.

Lemma fmt_cells (w0 w1 w2 : nat) (c : TableSpec.cells) :
  fmt [w0; w1; w2] (cells_json c) = Ok (TableSpec.row_line (w0, w1, w2) c).
Proof. reflexivity. Qed.

Lemma fmt_rows_cells (w0 w1 w2 : nat) (cs : list TableSpec.cells) :
  fmt_rows [w0; w1; w2] (map cells_json cs)
  = Ok (map (TableSpec.row_line (w0, w1, w2)) cs).
Proof.
  induction cs as [|c cs IH]; [done|].
  cbn [map fmt_rows]. rewrite fmt_cells, IH. done.
Qed.

Lemma ljust_length (s : pystr) (w : nat) :
  (length s <= w)%nat -> length (ljust s w) = w.
Proof.
  intros H. unfold ljust. rewrite length_app, length_replicate. lia.
Qed.

Lemma column_width_label (label : pystr) (column : list pystr) :
  (length label <= TableSpec.column_width label column)%nat.
Proof. unfold TableSpec.column_width. simpl. lia. Qed.

Lemma column_width_cell (label cell : pystr) (column : list pystr) :
  cell ∈ column ->
  (length cell <= TableSpec.column_width label column)%nat.
Proof.
  intros Hin. unfold TableSpec.column_width.
  apply max_list_elem_of_le, list_elem_of_further.
  by apply list_elem_of_fmap_2.
Qed.

Lemma row_line_length (ws : nat * nat * nat) (c : TableSpec.cells) :
  (length c.1.1 <= ws.1.1)%nat -> (length c.1.2 <= ws.1.2)%nat ->
  (length c.2 <= ws.2)%nat ->
  length (TableSpec.row_line ws c) = (ws.1.1 + ws.1.2 + ws.2 + 6)%nat.
Proof.
  intros H0 H1 H2. unfold TableSpec.row_line.
  rewrite !length_app, !ljust_length by done.
  change (length (txt " | ")) with 3%nat. lia.
Qed.

(** C7.  For every list of results that have a language label, a depth
    and a numeric [peak_mb], [format_table] returns the table of the
    specification: a header row, a separator row and one row per result, of
    three columns each; each column as wide as the longest of its label and
    its cells; every cell left-justified and padded to the width of its
    column, cells joined with [" | "]; the separator made of one run of
    dashes per column, as long as the column is wide, joined with ["-+-"].
    All lines of the table then have the same length. *)
Theorem format_table_layout (rows : list json) (cs : list TableSpec.cells) :
  Forall2 (fun row c => reported row = Some c) rows cs ->
  render rows = Ok (TableSpec.table cs)
  /\ length (TableSpec.lines cs) = (2 + length rows)%nat
  /\ Forall (fun line =>
               length line
               = ((TableSpec.widths cs).1.1 + (TableSpec.widths cs).1.2
                  + (TableSpec.widths cs).2 + 6)%nat)
            (TableSpec.lines cs).
Proof.
  intros Hrows. split; [|split].
  - unfold format_table. rewrite (data_rows_report _ _ Hrows).
    cbn [rbind].
    change (lens headers) with (Ok [2; 3; 11]%nat : result (list nat)).
    cbn [rbind]. rewrite widen_cells. cbn [rbind].
    change headers with (cells_json TableSpec.labels).
    rewrite fmt_cells, fmt_rows_cells. cbn [rbind].
    rewrite !max_list_acc.
    unfold TableSpec.table, TableSpec.lines, TableSpec.widths,
      TableSpec.column_width.
    rewrite !map_map. reflexivity.
  - unfold TableSpec.lines. cbn [length]. rewrite length_map.
    by rewrite (Forall2_length _ _ _ Hrows).
  - unfold TableSpec.lines. repeat apply Forall_cons_2.
    + apply row_line_length; apply column_width_label.
    + unfold TableSpec.separator_line.
      rewrite !length_app, !length_replicate.
      change (length (txt "-+-")) with 3%nat. lia.
    + apply Forall_forall. intros line Hline.
      apply list_elem_of_fmap in Hline as (c & -> & Hc).
      apply row_line_length; apply column_width_cell.
      * by apply (list_elem_of_fmap_2 (fun r : TableSpec.cells => r.1.1)).
      * by apply (list_elem_of_fmap_2 (fun r : TableSpec.cells => r.1.2)).
      * by apply (list_elem_of_fmap_2 (fun r : TableSpec.cells => r.2)).
Qed.

(** A result without [peak_mb] makes [format_table] raise, wherever it
    stands in the list. *)
Lemma data_row_needs_peak_mb (members : gmap pystr json) :
  members !! txt "peak_mb" = None ->
  exists e, data_row repr_other (JObj members) = Raise e.
Proof.
  intros Hnone. unfold data_row, getitem, rbind.
  destruct (members !! txt "language"); [|by eexists].
  destruct (members !! txt "depth"); [|by eexists].
  rewrite Hnone. by eexists.
Qed.

Lemma data_rows_raise (rows : list json) (row : json) (e : exn) :
  row ∈ rows -> data_row repr_other row = Raise e ->
  exists e', data_rows repr_other rows = Raise e'.
Proof.
  intros Hin Hrow. induction rows as [|r rs IH]; [by inversion Hin|].
  cbn [data_rows]. unfold rbind at 1.
  destruct (data_row repr_other r) as [c|e1] eqn:Hr; [|by eexists].
  apply elem_of_cons in Hin as [->|Hin]; [congruence|].
  destruct (IH Hin) as [e' ->]. by eexists.
Qed.

Lemma format_table_needs_peak_mb (rows : list json)
    (members : gmap pystr json) :
  JObj members ∈ rows -> members !! txt "peak_mb" = None ->
  exists e, render rows = Raise e.
Proof.
  intros Hin Hnone.
  destruct (data_row_needs_peak_mb _ Hnone) as [e He].
  destruct (data_rows_raise _ _ _ Hin He) as [e' He'].
  exists e'. unfold format_table. by rewrite He'.
Qed.

Lemma format_table_key_error (target : Target) (depth : Z)
    (members : gmap pystr json) :
  members !! txt "peak_mb" = None ->
  render [decorated target depth members]
  = Raise (KeyError (txt "peak_mb")).
Proof.
  intros Hnone. unfold format_table, decorated. cbn [data_rows].
  unfold data_row, getitem. cbn [rbind].
  rewrite (lookup_insert_ne _ _ (txt "language")) by (by vm_compute).
  rewrite !lookup_insert_eq. cbn [rbind].
  rewrite !lookup_insert_ne by (by vm_compute). by rewrite Hnone.
Qed.

End TableFacts.

(** ** The session *)

Section SessionFacts.

Variable ROOT : pystr.
Variable os_environ : gmap pystr pystr.
Variable temp_name : world -> pystr.
Variable execute :
  world -> list pystr -> option pystr -> gmap pystr pystr
  -> option completed.
Variable repr_other : json -> pystr.

Local Abbreviation measure :=
  (run_measurement ROOT os_environ temp_name execute).
Local Abbreviation inner :=
  (for_targets ROOT os_environ temp_name execute).
Local Abbreviation outer :=
  (for_depths ROOT os_environ temp_name execute).
Local Abbreviation build := (ensure_dotnet_built ROOT os_environ execute).
Local Abbreviation render := (format_table repr_other).
Local Abbreviation run :=
  (script ROOT os_environ temp_name execute repr_other).

Lemma request_of_decorated (target : Target) (depth : Z)
    (members : gmap pystr json) :
  request_of (decorated target depth members) = Some (depth, name target).
Proof.
  unfold request_of, decorated.
  rewrite lookup_insert_eq, lookup_insert_ne by (by vm_compute).
  by rewrite lookup_insert_eq.
Qed.

Lemma schedule_one (d : Z) (targets : list Target) :
  (targets ≫= fun target => [(d, name target)])
  = map (fun t => (d, name t)) targets.
Proof.
  induction targets as [|t ts IH]; [done|].
  cbn [map]. rewrite <- IH. reflexivity.
Qed.

Lemma schedule_cons (d : Z) (ds : list Z) (targets : list Target) :
  schedule (d :: ds) targets
  = map (fun t => (d, name t)) targets ++ schedule ds targets.
Proof. unfold schedule. cbn [mbind list_bind]. by rewrite schedule_one. Qed.

Lemma schedule_length (sizes : list Z) (targets : list Target) :
  length (schedule sizes targets) = (length sizes * length targets)%nat.
Proof.
  induction sizes as [|d ds IH]; [done|].
  rewrite schedule_cons, length_app, length_map, IH. cbn [length]. lia.
Qed.

Lemma inner_results (targets : list Target) (depth : Z)
    (python_exec : pystr) (acc results : list json) (w wf : world) :
  inner targets depth python_exec acc w = (Ok results, wf) ->
  exists new,
    results = acc ++ new
    /\ map request_of new = map (fun t => Some (depth, name t)) targets.
Proof.
  revert acc w; induction targets as [|t ts IH]; intros acc w;
    cbn [for_targets].
  - intros [= <- <-]. exists []. by rewrite app_nil_r.
  - unfold bind at 1.
    destruct (measure t depth python_exec w) as [[data|e] w1] eqn:Hrun;
      [|discriminate].
    intros Hrest. apply IH in Hrest as (new & -> & Hnew).
    apply run_measurement_ok_inv in Hrun
      as (? & ? & ? & members & _ & _ & _ & _ & _ & -> & _).
    exists (decorated t depth members :: new).
    split; [by rewrite <- app_assoc|].
    cbn [map]. by rewrite request_of_decorated, Hnew.
Qed.

Lemma outer_results (sizes : list Z) (targets : list Target)
    (python_exec : pystr) (acc results : list json) (w wf : world) :
  outer sizes targets python_exec acc w = (Ok results, wf) ->
  exists new,
    results = acc ++ new
    /\ map request_of new = map Some (schedule sizes targets).
Proof.
  revert acc w; induction sizes as [|d ds IH]; intros acc w;
    cbn [for_depths].
  - intros [= <- <-]. exists []. by rewrite app_nil_r.
  - unfold bind at 1.
    destruct (inner targets d python_exec acc w) as [[rs|e] w1] eqn:Hin;
      [|discriminate].
    intros Hrest. apply IH in Hrest as (new & -> & Hnew).
    apply inner_results in Hin as (new1 & -> & Hnew1).
    exists (new1 ++ new). split; [by rewrite <- app_assoc|].
    rewrite map_app, Hnew, Hnew1, schedule_cons, map_app, map_map.
    done.
Qed.

(** C3.  For every list of sizes and every list of targets, when all
    requests succeed the aggregated list holds exactly one decorated
    result per pair of a size and a target, sizes in the order given
    (duplicates kept, nothing sorted) and, within a size, targets in
    declaration order. *)
Theorem aggregated_order (sizes : list Z) (targets : list Target)
    (python_exec : pystr) (results : list json) (w wf : world) :
  outer sizes targets python_exec [] w = (Ok results, wf) ->
  map request_of results = map Some (schedule sizes targets)
  /\ length results = (length sizes * length targets)%nat.
Proof.
  intros Hrun. apply outer_results in Hrun as (new & -> & Hnew).
  cbn [app]. split; [done|].
  apply (f_equal length) in Hnew. rewrite !length_map in Hnew.
  rewrite Hnew. apply schedule_length.
Qed.

(** *** Builds and measurements print nothing *)

Lemma printed_app (w wf : world) (evs : list event) :
  events wf = events w ++ evs ->
  omap (fun ev => match ev with Print line => Some line | _ => None end)
       evs = [] ->
  printed wf = printed w.
Proof.
  intros Hev Hquiet. unfold printed.
  by rewrite Hev, omap_app, Hquiet, app_nil_r.
Qed.

Lemma printed_traceback (e : exn) (w : world) :
  printed (log (Traceback e) w) = printed w.
Proof. by apply (printed_app _ _ [Traceback e]). Qed.

Lemma printed_print (line : pystr) (w : world) :
  printed (log (Print line) w) = printed w ++ [line].
Proof. unfold printed, log. cbn [events]. by rewrite omap_app. Qed.

Lemma run_measurement_quiet (target : Target) (depth : Z)
    (python_exec : pystr) (w wf : world) (r : result json) :
  measure target depth python_exec w = (r, wf) -> printed wf = printed w.
Proof.
  set (path := temp_name w).
  set (cmd := helper_cmd ROOT target depth python_exec path).
  set (environ := helper_env os_environ target).
  destruct (execute (created path w) cmd None environ) as [p|] eqn:Hexec.
  2:{ rewrite run_measurement_not_started by done. intros [= _ <-].
      by eapply printed_app. }
  destruct (decide (returncode p = 0)) as [Hcode|Hcode].
  2:{ rewrite (run_measurement_exit_nonzero _ _ _ _ _ _ _ _ p) by done.
      intros [= _ <-]. by eapply printed_app. }
  rewrite (run_measurement_exit_0 _ _ _ _ _ _ _ _ p Hexec Hcode).
  cbv zeta. fold path.
  destruct (files_after p !! path) as [content|].
  2:{ intros [= _ <-]. by eapply printed_app. }
  destruct (decode_text content) as [text|].
  2:{ intros [= _ <-]. by eapply printed_app. }
  destruct (Json.loads (strip text)) as [[]|]; intros [= _ <-];
    by eapply printed_app.
Qed.

Lemma inner_quiet (targets : list Target) (depth : Z)
    (python_exec : pystr) (acc : list json) (w wf : world)
    (r : result (list json)) :
  inner targets depth python_exec acc w = (r, wf) ->
  printed wf = printed w.
Proof.
  revert acc w; induction targets as [|t ts IH]; intros acc w;
    cbn [for_targets].
  - by intros [= _ <-].
  - unfold bind at 1.
    destruct (measure t depth python_exec w) as [[data|e] w1] eqn:Hrun;
      apply run_measurement_quiet in Hrun; rewrite <- Hrun.
    + apply IH.
    + by intros [= _ <-].
Qed.

Lemma outer_quiet (sizes : list Z) (targets : list Target)
    (python_exec : pystr) (acc : list json) (w wf : world)
    (r : result (list json)) :
  outer sizes targets python_exec acc w = (r, wf) ->
  printed wf = printed w.
Proof.
  revert acc w; induction sizes as [|d ds IH]; intros acc w;
    cbn [for_depths].
  - by intros [= _ <-].
  - unfold bind at 1.
    destruct (inner targets d python_exec acc w) as [[rs|e] w1] eqn:Hin;
      apply inner_quiet in Hin; rewrite <- Hin.
    + apply IH.
    + by intros [= _ <-].
Qed.

(** What the build step does, by what the build tool does. *)
Lemma ensure_dotnet_built_cases (w : world) :
  let dir := Some (joinpath ROOT (txt "dotnet")) in
  build w =
  match execute w dotnet_publish dir os_environ with
  | None =>
    (Raise OSError, log (Spawn dotnet_publish dir os_environ) w)
  | Some p =>
    (if returncode p =? 0 then Ok tt
     else Raise (CalledProcessError (returncode p) dotnet_publish
                   None None),
     {| files := files_after p;
        events := events w ++ [Spawn dotnet_publish dir os_environ;
                               ChildOutput (stdout p) (stderr p)] |})
  end.
Proof.
  intros dir. unfold ensure_dotnet_built, bind, subprocess_run, ret.
  cbn [default]. fold dir.
  destruct (execute w dotnet_publish dir os_environ) as [p|]; [|done].
  unfold log; cbn [files events]. rewrite <- app_assoc.
  by destruct (returncode p =? 0).
Qed.

Lemma ensure_dotnet_built_quiet (w wf : world) (r : result unit) :
  build w = (r, wf) -> printed wf = printed w.
Proof.
  rewrite ensure_dotnet_built_cases. cbv zeta.
  destruct (execute w dotnet_publish _ os_environ) as [p|];
    intros [= _ <-]; by eapply printed_app.
Qed.

(** X19.  The one build step that pipes the streams of its tool does put
    what the tool wrote into the exception it raises: when [cargo] exits
    with a non-zero status, [ensure_rust_built] raises [RuntimeError] whose
    message ends with the standard error of [cargo], or with its standard
    output when the standard error is empty. *)
Lemma ensure_rust_built_carries_text (home : pystr) (w : world)
    (p : completed) :
  let dir := Some (joinpath ROOT (txt "rust")) in
  let cargo_bin := joinpath (joinpath home (txt ".cargo")) (txt "bin") in
  let environ :=
    <[txt "PATH" :=
        cargo_bin ++ txt ":" ++ default [] (os_environ !! txt "PATH")]>
      os_environ in
  let text := match stderr p with [] => stdout p | _ => stderr p end in
  execute w [txt "cargo"; txt "build"; txt "--release"] dir environ
  = Some p ->
  returncode p <> 0 ->
  (ensure_rust_built ROOT home os_environ execute w).1
  = Raise (RuntimeError (txt "cargo build --release 失败：" ++ text))
  /\ printed (ensure_rust_built ROOT home os_environ execute w).2
     = printed w.
Proof.
  intros dir cargo_bin environ text Hexec Hcode.
  subst dir cargo_bin environ.
  cbv beta zeta delta [ensure_rust_built subprocess_run].
  cbn [default] in Hexec |- *. unfold id in Hexec |- *. rewrite Hexec.
  destruct (Z.eqb_spec (returncode p) 0) as [|_]; [done|].
  cbn [fst snd]. split.
  - subst text. by destruct (stderr p).
  - by eapply printed_app.
Qed.

(** C5.  The script ends with status 0 or 1.  It ends with status 0 only
    when the build and every measurement request have succeeded and the
    table of all results has been printed, once, as the last thing the
    session does; with any other status nothing has been printed. *)
Theorem exit_status (args : Namespace) (w : world) :
  ((run args w).1 = 0 \/ (run args w).1 = 1)
  /\ ((run args w).1 = 0 ->
      exists w1 w2 results table,
        build w = (Ok tt, w1)
        /\ outer (depths args) (targets ROOT) (python args) [] w1
           = (Ok results, w2)
        /\ length results
           = (length (depths args) * length (targets ROOT))%nat
        /\ render results = Ok table
        /\ events (run args w).2 = events w2 ++ [Print table]
        /\ printed w2 = printed w
        /\ printed (run args w).2 = printed w ++ [table])
  /\ ((run args w).1 <> 0 -> printed (run args w).2 = printed w).
Proof.
  unfold script, main, bind.
  destruct (build w) as [[[]|e] w1] eqn:Hbuild;
    apply ensure_dotnet_built_quiet in Hbuild as Hq1.
  2:{ cbn [fst snd]. repeat split; [by right | done |].
      intros _. by rewrite printed_traceback. }
  destruct (outer (depths args) (targets ROOT) (python args) [] w1)
    as [[results|e] w2] eqn:Hloop;
    apply outer_quiet in Hloop as Hq2.
  2:{ cbn [fst snd]. repeat split; [by right | done |].
      intros _. rewrite printed_traceback. congruence. }
  unfold lift, print, ret.
  destruct (render results) as [table|e] eqn:Htable; cbn [fst snd].
  - repeat split; [by left | | done]. intros _.
    exists w1, w2, results, table. repeat split; try done.
    + by apply aggregated_order in Hloop as [_ ?].
    + congruence.
    + rewrite printed_print. congruence.
  - repeat split; [by right | done |]. intros _.
    rewrite printed_traceback. congruence.
Qed.

(** C6, as the code has it.  When the build step exits with a non-zero
    status, [ensure_dotnet_built] raises [CalledProcessError] with the
    command and the status; the streams of the build are not piped, so the
    exception carries no captured text and what the build tool wrote went
    to the inherited streams.  The session stops there: no measurement
    helper is started, nothing is printed, and the script ends with
    status 1 after reporting the exception. *)
Theorem build_failure_aborts (args : Namespace) (w : world)
    (p : completed) :
  let dir := Some (joinpath ROOT (txt "dotnet")) in
  let e := CalledProcessError (returncode p) dotnet_publish None None in
  let w1 :=
    {| files := files_after p;
       events := events w ++ [Spawn dotnet_publish dir os_environ;
                              ChildOutput (stdout p) (stderr p)] |} in
  execute w dotnet_publish dir os_environ = Some p ->
  returncode p <> 0 ->
  build w = (Raise e, w1)
  /\ captured_text e = []
  /\ run args w = (1, log (Traceback e) w1)
  /\ spawned (run args w).2 = spawned w ++ [dotnet_publish]
  /\ printed (run args w).2 = printed w.
Proof.
  intros dir e w1 Hexec Hcode.
  assert (Hbuild : build w = (Raise e, w1)).
  { rewrite ensure_dotnet_built_cases. cbv zeta. fold dir.
    rewrite Hexec. by destruct (Z.eqb_spec (returncode p) 0). }
  assert (Hrun : run args w = (1, log (Traceback e) w1)).
  { unfold script, main, bind. by rewrite Hbuild. }
  repeat split; try done; rewrite Hrun; cbn [snd].
  - unfold spawned, log, w1. cbn [events].
    rewrite !omap_app. cbn. by rewrite app_nil_r.
  - rewrite printed_traceback. by eapply printed_app.
Qed.

(** C4, as the code has it.  Once the helper has exited with status 0 and
    left a result file: content that is not UTF-8 or not JSON makes the
    request raise a decoding error; content that parses to something other
    than an object makes it raise [TypeError]; content that parses to an
    object is decorated and returned whether or not it has [peak_mb], and
    it is [format_table] that raises when a result lacks [peak_mb]. *)
Theorem malformed_result_outcomes (target : Target) (depth : Z)
    (python_exec : pystr) (w : world) (p : completed)
    (content : list byte) :
  let r := (measure target depth python_exec w).1 in
  execute (created (temp_name w) w)
    (helper_cmd ROOT target depth python_exec (temp_name w)) None
    (helper_env os_environ target) = Some p ->
  returncode p = 0 ->
  files_after p !! temp_name w = Some content ->
  (decode_text content = None -> r = Raise UnicodeDecodeError)
  /\ (forall text,
        decode_text content = Some text ->
        Json.loads (strip text) = None -> r = Raise JSONDecodeError)
  /\ (forall text v,
        decode_text content = Some text ->
        Json.loads (strip text) = Some v ->
        (forall members, v <> JObj members) -> r = Raise TypeError)
  /\ (forall text members,
        decode_text content = Some text ->
        Json.loads (strip text) = Some (JObj members) ->
        r = Ok (decorated target depth members)
        /\ (members !! txt "peak_mb" = None ->
            render [decorated target depth members]
            = Raise (KeyError (txt "peak_mb"))
            /\ forall rows, decorated target depth members ∈ rows ->
                            exists e, render rows = Raise e)).
Proof.
  intros r Hexec Hcode Hfile. subst r.
  rewrite (run_measurement_exit_0 _ _ _ _ _ _ _ _ p Hexec Hcode).
  cbv zeta. rewrite Hfile.
  split; [|split; [|split]].
  - by intros ->.
  - by intros text -> ->.
  - intros text v -> -> Hv. destruct v; try done. by destruct (Hv members).
  - intros text members -> ->. split; [done|]. intros Hnone. split.
    + by apply format_table_key_error.
    + intros rows Hin. eapply format_table_needs_peak_mb; [exact Hin|].
      by rewrite !lookup_insert_ne by (by vm_compute).
Qed.

End SessionFacts.

(** ** Worked examples *)

(** Helper output [{"peak_mb": 123.45}] for target [Rust] at depth 16 gives
    a record with that [peak_mb], [language] [Rust] and [depth] 16. *)
Lemma run_measurement_decorates_witness :
  exists wf result,
    Example.measure (Some (Example.quoted "{'peak_mb': 123.45}"))
      (Example.target "Rust") 16 Example.w0 = (Ok (JObj result), wf)
    /\ result !! txt "language" = Some (JStr (txt "Rust"))
    /\ result !! txt "depth" = Some (JInt 16)
    /\ result !! txt "peak_mb"
       = Some (JFloat (Float.of_decimal false 12345 (-2))).
Proof.
  set (out := Example.measure _ _ _ _).
  assert (H : out = (Ok (Example.value_or out.1 JNull), out.2))
    by (vm_compute; reflexivity).
  destruct (run_measurement_decorates _ _ _ _ _ _ _ _ _ _ H)
    as (p & content & text & members & result & Hexec & Hfile & Htext
        & Hload & Hdata & Hlang & Hdepth & Hpeak).
  exists out.2, result. split; [rewrite <- Hdata; exact H|].
  split; [exact Hlang|]. split; [exact Hdepth|].
  vm_compute in Hexec. injection Hexec as <-.
  vm_compute in Hfile. injection Hfile as <-.
  vm_compute in Htext. injection Htext as <-.
  vm_compute in Hload. injection Hload as <-.
  rewrite Hpeak. vm_compute. reflexivity.
Defined.

(** A helper that itself writes [language] and [depth] has them replaced;
    its other keys come back as written. *)
Lemma run_measurement_overwrites_witness :
  exists wf result,
    Example.measure
      (Some (Example.quoted
               "{'language': 'Zig', 'depth': 1, 'peak_mb': 2.5, 'runs': 3}"))
      (Example.target "Rust") 16 Example.w0 = (Ok (JObj result), wf)
    /\ result !! txt "language" = Some (JStr (txt "Rust"))
    /\ result !! txt "depth" = Some (JInt 16)
    /\ result !! txt "runs" = Some (JInt 3).
Proof.
  set (out := Example.measure _ _ _ _).
  assert (H : out = (Ok (Example.value_or out.1 JNull), out.2))
    by (vm_compute; reflexivity).
  destruct (run_measurement_overwrites _ _ _ _ _ _ _ _ _ _ H)
    as (p & content & text & members & result & Hexec & Hfile & Htext
        & Hload & Hdata & Hkeys).
  exists out.2, result. split; [rewrite <- Hdata; exact H|].
  split; [by rewrite Hkeys|]. split; [by rewrite Hkeys|].
  vm_compute in Hexec. injection Hexec as <-.
  vm_compute in Hfile. injection Hfile as <-.
  vm_compute in Htext. injection Htext as <-.
  vm_compute in Hload. injection Hload as <-.
  rewrite Hkeys. vm_compute. reflexivity.
Defined.

(** After a successful request the temporary file is gone, and deleting it
    once more is harmless. *)
Lemma temporary_file_removed_witness :
  exists data wf,
    Example.measure (Some (Example.quoted "{'peak_mb': 1.5}"))
      (Example.target "Go") 10 Example.w0 = (Ok data, wf)
    /\ files wf !! Example.temp_name Example.w0 = None
    /\ unlink true (Example.temp_name Example.w0) wf = (Ok tt, wf).
Proof.
  set (out := Example.measure _ _ _ _).
  assert (H : out = (Ok (Example.value_or out.1 JNull), out.2))
    by (vm_compute; reflexivity).
  destruct (temporary_file_removed Example.ROOT Example.os_environ
              Example.temp_name
              (Example.helper_writes
                 (Some (Example.quoted "{'peak_mb': 1.5}"))))
    as [Hgone Hagain].
  exists (Example.value_or out.1 JNull), out.2.
  split; [exact H|].
  pose proof (Hgone _ _ _ _ _ _ H) as Hnone.
  split; [exact Hnone | exact (Hagain _ _ Hnone)].
Defined.

(** A helper that exits with status 0 and writes nothing: the request ends
    in [JSONDecodeError]. *)
Lemma silent_helper_outcome_witness :
  (Example.measure None (Example.target "Rust") 16 Example.w0).1
  = Raise JSONDecodeError
  /\ Raise JSONDecodeError
     <> (Raise (missing_result_file (Example.target "Rust") 16)
         : result json).
Proof.
  apply (silent_helper_outcome Example.ROOT Example.os_environ
           Example.temp_name (Example.helper_writes None)
           (Example.target "Rust") 16 Example.py Example.w0
           (Example.exits 0 [] []
              (created (Example.temp_name Example.w0) Example.w0)));
    vm_compute; reflexivity.
Defined.

(** Sizes [10, 16] over targets [A, B] give the results in the order
    (10, A), (10, B), (16, A), (16, B). *)
Lemma aggregated_order_witness :
  exists results wf,
    Example.measure_all (Some (Example.quoted "{'peak_mb': 1.5}"))
      [10; 16] [Example.target "A"; Example.target "B"] Example.w0
    = (Ok results, wf)
    /\ map request_of results
       = [Some (10, txt "A"); Some (10, txt "B");
          Some (16, txt "A"); Some (16, txt "B")]
    /\ length results = 4%nat.
Proof.
  set (out := Example.measure_all _ _ _ _).
  assert (H : out = (Ok (Example.value_or out.1 []), out.2))
    by (vm_compute; reflexivity).
  destruct (aggregated_order _ _ _ _ _ _ _ _ _ _ H) as [Horder Hcount].
  exists (Example.value_or out.1 []), out.2.
  split; [exact H|]. split; [exact Horder | exact Hcount].
Defined.

(** C4 fails as stated: a result file holding [{}] parses and lacks
    [peak_mb], and the request returns a record without [peak_mb] instead of
    failing. *)
Lemma record_without_peak_mb_is_returned :
  exists wf result,
    Example.measure (Some (Example.quoted "{}")) (Example.target "Rust") 16
      Example.w0 = (Ok (JObj result), wf)
    /\ result !! txt "peak_mb" = None.
Proof. eexists _, _. split; vm_compute; reflexivity. Qed.

(** The same input in the amended statement: the record is returned, and
    rendering it raises [KeyError]. *)
Lemma malformed_result_outcomes_witness :
  (Example.measure (Some (Example.quoted "{}")) (Example.target "Rust") 16
     Example.w0).1
  = Ok (decorated (Example.target "Rust") 16 ∅)
  /\ format_table Example.repr_other [decorated (Example.target "Rust") 16 ∅]
     = Raise (KeyError (txt "peak_mb")).
Proof.
  pose proof (malformed_result_outcomes Example.ROOT Example.os_environ
                Example.temp_name
                (Example.helper_writes (Some (Example.quoted "{}")))
                Example.repr_other (Example.target "Rust") 16 Example.py
                Example.w0
                {| returncode := 0; stdout := []; stderr := [];
                   files_after := {[ Example.temp_name Example.w0
                                     := Example.quoted "{}" ]} |}
                (Example.quoted "{}")) as H.
  cbv zeta in H.
  destruct H as (_ & _ & _ & H); [vm_compute; reflexivity ..|].
  destruct (H (txt "{}") ∅) as [Hret Hfmt]; [vm_compute; reflexivity ..|].
  split; [exact Hret|]. apply Hfmt. reflexivity.
Defined.

(** C6 fails as stated: the build writes its error to standard error and
    exits with status 1, and the exception raised carries no captured
    text. *)
Lemma build_failure_carries_no_text :
  exists p e wf,
    Example.build_fails Example.w0 dotnet_publish
      (Some (joinpath Example.ROOT (txt "dotnet"))) Example.os_environ
    = Some p
    /\ returncode p = 1
    /\ stderr p = txt "error CS1002: ; expected"
    /\ ensure_dotnet_built Example.ROOT Example.os_environ
         Example.build_fails Example.w0 = (Raise e, wf)
    /\ captured_text e = [].
Proof. eexists _, _, _. repeat split; vm_compute; reflexivity. Qed.

(** The same failing build in the amended statement. *)
Lemma build_failure_aborts_witness :
  (Example.session Example.build_fails [10; 16]).1 = 1
  /\ spawned (Example.session Example.build_fails [10; 16]).2
     = [dotnet_publish]
  /\ printed (Example.session Example.build_fails [10; 16]).2 = [].
Proof.
  destruct (build_failure_aborts Example.ROOT Example.os_environ
              Example.temp_name Example.build_fails Example.repr_other
              {| depths := [10; 16]; python := Example.py |} Example.w0
              (Example.exits 1 (txt "Build FAILED.")
                 (txt "error CS1002: ; expected") Example.w0))
    as (_ & _ & Hrun & Hspawned & Hprinted);
    [vm_compute; reflexivity | discriminate |].
  unfold Example.session. rewrite Hrun in *.
  split; [reflexivity|]. split; [exact Hspawned | exact Hprinted].
Defined.

(** The rows (Go, 10, 5.00) and (Rust, 16, 12.30) under the labels of
    the script. *)
Lemma format_table_layout_witness :
  format_table Example.repr_other
    [Example.row "Go" 10 (JFloat (Float.of_decimal false 5 0));
     Example.row "Rust" 16 (JFloat (Float.of_decimal false 123 (-1)))]
  = Ok (join [10%N]
          [txt "语言   | 树深度 | 峰值 RSS (MB)";
           txt "-----+-----+------------";
           txt "Go   | 10  | 5.00       ";
           txt "Rust | 16  | 12.30      "])
  /\ TableSpec.widths
       [(txt "Go", txt "10", txt "5.00"); (txt "Rust", txt "16", txt "12.30")]
     = (4, 3, 11)%nat.
Proof.
  destruct (format_table_layout Example.repr_other
              [Example.row "Go" 10 (JFloat (Float.of_decimal false 5 0));
               Example.row "Rust" 16
                 (JFloat (Float.of_decimal false 123 (-1)))]
              [(txt "Go", txt "10", txt "5.00");
               (txt "Rust", txt "16", txt "12.30")])
    as (Htable & _ & _).
  { repeat constructor; vm_compute; reflexivity. }
  split; [rewrite Htable; vm_compute; reflexivity | vm_compute; reflexivity].
Defined.

(** A full session over two sizes ends with status 0 and has printed one
    table. *)
Example session_succeeds :
  (Example.session
     (Example.helper_writes (Some (Example.quoted "{'peak_mb': 123.45}")))
     [10; 16]).1 = 0
  /\ printed (Example.session
                (Example.helper_writes
                   (Some (Example.quoted "{'peak_mb': 123.45}")))
                [10; 16]).2
     = [join [10%N]
          [txt "语言   | 树深度 | 峰值 RSS (MB)";
           txt "-----+-----+------------";
           txt ".NET | 10  | 123.45     ";
           txt ".NET | 16  | 123.45     "]].
Proof. split; vm_compute; reflexivity. Qed.

(** * Further properties *)

(** ** Command templates *)

Lemma digits_head (u : Decimal.uint) (c : N) (rest : pystr) :
  digits u = c :: rest -> (48 <= c <= 57)%N.
Proof. destruct u; cbn [digits]; intros [= <- _]; lia. Qed.

Lemma str_of_int_head (n : Z) (c : N) (rest : pystr) :
  str_of_int n = c :: rest ->
  (n < 0 /\ c = 45%N) \/ (0 <= n /\ (48 <= c <= 57)%N).
Proof.
  unfold str_of_int. destruct n as [|p|p]; cbn [Z.to_int].
  - intros H. right. split; [lia|]. by apply digits_head in H.
  - intros H. right. split; [lia|]. by apply digits_head in H.
  - intros [= <- _]. left. split; [lia | done].
Qed.

Lemma str_of_int_not_placeholder (n : Z) : str_of_int n <> placeholder.
Proof.
  intros H. change placeholder with [123; 110; 125]%N in H.
  apply str_of_int_head in H. lia.
Qed.

Lemma str_of_int_inj (n m : Z) : str_of_int n = str_of_int m -> n = m.
Proof.
  intros H.
  destruct (str_of_int_decimal n) as [Hn0 Hn1].
  destruct (str_of_int_decimal m) as [Hm0 Hm1].
  destruct (Z.lt_ge_cases n 0) as [Hn|Hn], (Z.lt_ge_cases m 0) as [Hm|Hm].
  - destruct (Hn1 Hn) as (ds & E1 & V1), (Hm1 Hm) as (ds' & E2 & V2).
    rewrite E1, E2 in H. injection H as ->. lia.
  - destruct (Hn1 Hn) as (ds & E1 & _). rewrite E1 in H. symmetry in H.
    apply str_of_int_head in H. lia.
  - destruct (Hm1 Hm) as (ds & E1 & _). rewrite E1 in H.
    apply str_of_int_head in H. lia.
  - rewrite <- (Hn0 Hn), <- (Hm0 Hm). by rewrite H.
Qed.

(** X1.  The command contains no placeholder token any more; a template
    without placeholder tokens is returned as it is, for every depth; so
    substituting a second time, with any depth, changes nothing. *)
Theorem command_leaves_no_placeholder (T : Target) (D : Z) :
  (placeholder ∉ command T D)
  /\ (placeholder ∉ template T -> command T D = template T)
  /\ forall D',
       command {| name := name T; cwd := cwd T; template := command T D;
                  env := env T |} D'
       = command T D.
Proof.
  assert (Hid : forall tokens D',
             placeholder ∉ tokens ->
             map (fun token => if decide (token = placeholder)
                               then str_of_int D' else token) tokens
             = tokens).
  { intros tokens D'. induction tokens as [|t ts IH]; [done|].
    intros Hnot. apply not_elem_of_cons in Hnot as [Hne Hts].
    cbn [map]. rewrite IH by done. by destruct (decide (t = placeholder)). }
  assert (Hnone : placeholder ∉ command T D).
  { unfold command. rewrite command_loop. cbn [app].
    intros Hin. apply list_elem_of_fmap in Hin as (t & Ht & _).
    destruct (decide (t = placeholder)); [|done].
    by apply (str_of_int_not_placeholder D). }
  split; [exact Hnone|]. split.
  - intros Hnot. unfold command. rewrite command_loop. by apply Hid.
  - intros D'. unfold command at 1. cbn [template].
    rewrite command_loop. by apply Hid.
Qed.

(** X2.  Only a token that is exactly the placeholder is substituted: a
    token that merely contains ["{n}"], with anything before or after it,
    is passed through unchanged. *)
Theorem command_matches_whole_tokens (T : Target) (D : Z) (i : nat)
    (before after : pystr) :
  before ++ after <> [] ->
  template T !! i = Some (before ++ placeholder ++ after) ->
  command T D !! i = Some (before ++ placeholder ++ after).
Proof.
  intros Hmore Hi. unfold command. rewrite command_loop. cbn [app].
  rewrite list_lookup_fmap, Hi. cbn [fmap option_fmap option_map].
  destruct (decide (before ++ placeholder ++ after = placeholder)) as [E|];
    [|done].
  apply (f_equal length) in E. rewrite !length_app in E.
  destruct before, after; cbn [length] in *; try done; lia.
Qed.

(** X3.  When the template holds a placeholder token, different depths give
    different commands. *)
Theorem command_tells_depths_apart (T : Target) (D D' : Z) :
  placeholder ∈ template T -> command T D = command T D' -> D = D'.
Proof.
  intros Hin Heq. unfold command in Heq. rewrite !command_loop in Heq.
  cbn [app] in Heq. apply list_elem_of_lookup in Hin as [i Hi].
  apply (f_equal (fun l => l !! i)) in Heq.
  rewrite !list_lookup_fmap, Hi in Heq. cbn in Heq.
  destruct (decide (placeholder = placeholder)); [|done].
  injection Heq as Heq. by apply str_of_int_inj.
Qed.

(** ** White space around the result *)

Lemma lstrip_spaces (spaces s : pystr) :
  forallb isspace spaces = true -> lstrip (spaces ++ s) = lstrip s.
Proof.
  induction spaces as [|c cs IH]; [done|].
  cbn [forallb app lstrip]. intros [Hc Hcs]%andb_prop.
  rewrite Hc. by apply IH.
Qed.

Lemma lstrip_nil_app (a b : pystr) :
  lstrip a = [] -> lstrip (a ++ b) = lstrip b.
Proof.
  induction a as [|c a IH]; [done|]. cbn [app lstrip].
  destruct (isspace c); [exact IH | discriminate].
Qed.

Lemma lstrip_cons_app (a b rest : pystr) (c : N) :
  lstrip a = c :: rest -> lstrip (a ++ b) = (c :: rest) ++ b.
Proof.
  induction a as [|x a IH]; [discriminate|]. cbn [app lstrip].
  destruct (isspace x); [exact IH|]. by intros [= -> ->].
Qed.

Lemma rstrip_spaces (spaces s : pystr) :
  forallb isspace spaces = true -> rstrip (s ++ spaces) = rstrip s.
Proof.
  intros Hsp. unfold rstrip. rewrite rev_app_distr, lstrip_spaces; [done|].
  apply forallb_forall. intros c Hc%in_rev.
  by apply (proj1 (forallb_forall isspace spaces) Hsp).
Qed.

(** X21.  Because the text of the result file is stripped before it is
    parsed, white space of any kind that [str.strip] removes, before and
    after the result, makes no difference to what is parsed. *)
Theorem strip_ignores_surrounding_space (before text after : pystr) :
  forallb isspace before = true -> forallb isspace after = true ->
  Json.loads (strip (before ++ text ++ after)) = Json.loads (strip text).
Proof.
  intros Hb Ha. f_equal. unfold strip. rewrite lstrip_spaces by done.
  destruct (lstrip text) as [|c rest] eqn:E.
  - rewrite (lstrip_nil_app _ _ E), <- (app_nil_r after).
    rewrite lstrip_spaces by done. done.
  - rewrite (lstrip_cons_app _ _ _ _ E). by apply rstrip_spaces.
Qed.

(** ** More on one measurement *)

Section MeasurementMore.

Variable ROOT : pystr.
Variable os_environ : gmap pystr pystr.
Variable temp_name : world -> pystr.
Variable execute :
  world -> list pystr -> option pystr -> gmap pystr pystr
  -> option completed.

Local Abbreviation request :=
  (run_measurement ROOT os_environ temp_name execute).

(** The events of a request: the helper is started, and writes to the
    inherited streams when it could be started. *)
Lemma run_measurement_events (target : Target) (depth : Z)
    (python_exec : pystr) (w wf : world) (r : result json) :
  request target depth python_exec w = (r, wf) ->
  exists tail,
    events wf
    = events w
      ++ Spawn (helper_cmd ROOT target depth python_exec (temp_name w)) None
           (helper_env os_environ target) :: tail
    /\ (tail = [] \/ exists out err, tail = [ChildOutput out err]).
Proof.
  set (path := temp_name w).
  set (cmd := helper_cmd ROOT target depth python_exec path).
  set (environ := helper_env os_environ target).
  destruct (execute (created path w) cmd None environ) as [p|] eqn:Hexec.
  2:{ rewrite run_measurement_not_started by done. intros [= _ <-].
      exists []. split; [done | by left]. }
  assert (Hshape : forall fs : gmap pystr (list byte),
             exists tail,
               events {| files := fs;
                         events := events w ++ [Spawn cmd None environ;
                                                ChildOutput (stdout p)
                                                  (stderr p)] |}
               = events w ++ Spawn cmd None environ :: tail
               /\ (tail = [] \/ exists out err, tail = [ChildOutput out err])).
  { intros fs. exists [ChildOutput (stdout p) (stderr p)].
    split; [done | right; eauto]. }
  destruct (decide (returncode p = 0)) as [Hcode|Hcode].
  2:{ rewrite (run_measurement_exit_nonzero _ _ _ _ _ _ _ _ p) by done.
      intros [= _ <-]. apply Hshape. }
  rewrite (run_measurement_exit_0 _ _ _ _ _ _ _ _ p Hexec Hcode).
  cbv zeta. fold path.
  destruct (files_after p !! path) as [content|].
  2:{ intros [= _ <-]. apply Hshape. }
  destruct (decode_text content) as [text|].
  2:{ intros [= _ <-]. apply Hshape. }
  destruct (Json.loads (strip text)) as [[]|]; intros [= _ <-];
    apply Hshape.
Qed.

(** X4.  Whatever its outcome, a measurement request starts exactly one
    child process, the measurement helper with the command line of the
    request, and prints nothing itself. *)
Theorem run_measurement_one_child (target : Target) (depth : Z)
    (python_exec : pystr) (w wf : world) (r : result json) :
  request target depth python_exec w = (r, wf) ->
  spawned wf
  = spawned w ++ [helper_cmd ROOT target depth python_exec (temp_name w)]
  /\ printed wf = printed w.
Proof.
  intros Hrun. apply run_measurement_events in Hrun as (tail & Hev & Htail).
  unfold spawned, printed. rewrite Hev, !omap_app.
  destruct Htail as [->|(out & err & ->)]; cbn; by rewrite app_nil_r.
Qed.

(** X5.  A request that fails before the result file is read leaves the
    temporary file behind: when the helper cannot be started the empty file
    stays; when the helper exits with a non-zero status the request raises
    [CalledProcessError] without captured output and the files are as the
    helper left them; when the content is not UTF-8 the request raises
    [UnicodeDecodeError] and the file stays as written. *)
Theorem temporary_file_left_on_early_failure (target : Target) (depth : Z)
    (python_exec : pystr) (w : world) :
  let path := temp_name w in
  let cmd := helper_cmd ROOT target depth python_exec path in
  let environ := helper_env os_environ target in
  let out := request target depth python_exec w in
  (execute (created path w) cmd None environ = None ->
   out.1 = Raise OSError /\ files out.2 !! path = Some [])
  /\ (forall p,
        execute (created path w) cmd None environ = Some p ->
        returncode p <> 0 ->
        out.1 = Raise (CalledProcessError (returncode p) cmd None None)
        /\ files out.2 = files_after p)
  /\ (forall p content,
        execute (created path w) cmd None environ = Some p ->
        returncode p = 0 ->
        files_after p !! path = Some content ->
        decode_text content = None ->
        out.1 = Raise UnicodeDecodeError
        /\ files out.2 !! path = Some content).
Proof.
  intros path cmd environ out. subst out. split; [|split].
  - intros Hexec. rewrite run_measurement_not_started by done.
    cbn [fst snd files]. split; [done | apply lookup_insert_eq].
  - intros p Hexec Hcode.
    by rewrite (run_measurement_exit_nonzero _ _ _ _ _ _ _ _ p).
  - intros p content Hexec Hcode Hfile Hbad.
    rewrite (run_measurement_exit_0 _ _ _ _ _ _ _ _ p Hexec Hcode).
    cbv zeta. fold path. by rewrite Hfile, Hbad.
Qed.

(** X6.  Once the text of the result file has been read, the file is
    removed before the text is parsed: a request that then fails in
    [json.loads], or because the value is not an object, has removed the
    temporary file all the same. *)
Theorem temporary_file_removed_on_parse_failure (target : Target)
    (depth : Z) (python_exec : pystr) (w : world) (p : completed)
    (content : list byte) (text : pystr) :
  let path := temp_name w in
  let out := request target depth python_exec w in
  execute (created path w)
    (helper_cmd ROOT target depth python_exec path) None
    (helper_env os_environ target) = Some p ->
  returncode p = 0 ->
  files_after p !! path = Some content ->
  decode_text content = Some text ->
  (forall members, Json.loads (strip text) <> Some (JObj members)) ->
  (out.1 = Raise JSONDecodeError \/ out.1 = Raise TypeError)
  /\ files out.2 !! path = None.
Proof.
  intros path out Hexec Hcode Hfile Htext Hbad. subst out.
  rewrite (run_measurement_exit_0 _ _ _ _ _ _ _ _ p Hexec Hcode).
  cbv zeta. fold path. rewrite Hfile, Htext.
  destruct (Json.loads (strip text)) as [[]|]; cbn [fst snd files];
    try (split; [by auto | apply lookup_delete_eq]).
  by destruct (Hbad members).
Qed.

(** X7.  The environment of the helper: a variable the target overrides has
    the value of the target, every other variable the inherited value. *)
Theorem helper_env_lookup (target : Target) (key : pystr) :
  helper_env os_environ target !! key
  = match env target ≫= (fun overrides => overrides !! key) with
    | Some value => Some value
    | None => os_environ !! key
    end.
Proof.
  unfold helper_env. destruct (env target) as [overrides|]; [|done].
  cbn [mbind option_bind].
  destruct (decide (overrides = ∅)) as [->|_].
  - by rewrite lookup_empty.
  - rewrite lookup_union. by destruct (overrides !! key), (os_environ !! key).
Qed.

End MeasurementMore.

(** ** More on the table *)

Section TableMore.

Variable repr_other : json -> pystr.

Local Abbreviation tabulate := (format_table repr_other).

Lemma data_rows_app_raise (good rest : list json) (bad : json) (e : exn) :
  Forall (fun row => exists cells, data_row repr_other row = Ok cells) good ->
  data_row repr_other bad = Raise e ->
  data_rows repr_other (good ++ bad :: rest) = Raise e.
Proof.
  intros Hgood Hbad. induction Hgood as [|row good [cells Hrow] _ IH].
  - cbn [app data_rows]. by rewrite Hbad.
  - cbn [app data_rows]. rewrite Hrow. cbn [rbind]. by rewrite IH.
Qed.

(** X8.  The exception of [format_table] is that of the first result, in
    list order, that has no report row: results after it are not looked
    at. *)
Theorem format_table_first_bad_row (good rest : list json) (bad : json)
    (e : exn) :
  Forall (fun row => exists cells, data_row repr_other row = Ok cells) good ->
  data_row repr_other bad = Raise e ->
  tabulate (good ++ bad :: rest) = Raise e.
Proof.
  intros Hgood Hbad. unfold format_table.
  by rewrite (data_rows_app_raise _ _ _ _ Hgood Hbad).
Qed.

Lemma data_row_three_keys (row row' : json) :
  getitem row (txt "language") = getitem row' (txt "language") ->
  getitem row (txt "depth") = getitem row' (txt "depth") ->
  getitem row (txt "peak_mb") = getitem row' (txt "peak_mb") ->
  data_row repr_other row = data_row repr_other row'.
Proof. unfold data_row. by intros -> -> ->. Qed.

(** X9.  [format_table] reads nothing of a result but its [language],
    [depth] and [peak_mb]: two lists of results that agree on these three
    items, result by result, give the same table or the same exception,
    whatever else the results hold. *)
Theorem format_table_reads_three_keys (rows rows' : list json) :
  Forall2 (fun row row' =>
             getitem row (txt "language") = getitem row' (txt "language")
             /\ getitem row (txt "depth") = getitem row' (txt "depth")
             /\ getitem row (txt "peak_mb") = getitem row' (txt "peak_mb"))
          rows rows' ->
  tabulate rows = tabulate rows'.
Proof.
  intros Hagree. unfold format_table.
  assert (E : data_rows repr_other rows = data_rows repr_other rows').
  { induction Hagree as [|row row' rows rows' (Hl & Hd & Hp) _ IH]; [done|].
    cbn [data_rows]. by rewrite (data_row_three_keys _ _ Hl Hd Hp), IH. }
  by rewrite E.
Qed.

Lemma widen_row_grows (cells : list json) (idx : nat)
    (widths widths' : list nat) :
  widen_row cells idx widths = Ok widths' ->
  length widths' = length widths
  /\ forall i a, widths !! i = Some a ->
                 exists b, widths' !! i = Some b /\ (a <= b)%nat.
Proof.
  revert idx widths; induction cells as [|cell cells IH]; intros idx widths;
    cbn [widen_row].
  { intros [= <-]. split; [done|]. intros i a Hi. exists a. by split. }
  destruct (widths !! idx) as [w|] eqn:Hidx; [|done].
  destruct (py_len cell) as [n|]; [|done]. cbn [rbind].
  intros Hrest. apply IH in Hrest as [Hlen Hgrow].
  rewrite length_insert in Hlen. split; [done|].
  intros i a Hi. destruct (decide (i = idx)) as [->|Hne].
  - destruct (Hgrow idx (Nat.max w n)) as (b & Hb & Hle).
    { apply list_lookup_insert_eq. by eapply lookup_lt_Some. }
    exists b. split; [done|]. rewrite Hidx in Hi. injection Hi as <-. lia.
  - apply Hgrow. by rewrite list_lookup_insert_ne.
Qed.

(** X10.  The width loop of [format_table] keeps the number of columns and
    never narrows one: for any rows it accepts, every column ends at least
    as wide as it started. *)
Theorem widen_grows (table : list (list json)) (widths widths' : list nat) :
  widen table widths = Ok widths' ->
  length widths' = length widths
  /\ forall i a, widths !! i = Some a ->
                 exists b, widths' !! i = Some b /\ (a <= b)%nat.
Proof.
  revert widths; induction table as [|cells table IH]; intros widths;
    cbn [widen].
  { intros [= <-]. split; [done|]. intros i a Hi. exists a. by split. }
  destruct (widen_row cells 0 widths) as [ws|] eqn:Hrow; [|done].
  cbn [rbind]. intros Hrest.
  apply widen_row_grows in Hrow as [Hlen1 Hgrow1].
  apply IH in Hrest as [Hlen2 Hgrow2]. split; [congruence|].
  intros i a Hi. destruct (Hgrow1 i a Hi) as (b & Hb & Hab).
  destruct (Hgrow2 i b Hb) as (c & Hc & Hbc). exists c. split; [done | lia].
Qed.

End TableMore.

(** ** More on the session *)

Section SessionMore.

Variable ROOT : pystr.
Variable os_environ : gmap pystr pystr.
Variable temp_name : world -> pystr.
Variable execute :
  world -> list pystr -> option pystr -> gmap pystr pystr
  -> option completed.
Variable repr_other : json -> pystr.

Local Abbreviation asks := (asks ROOT).

Lemma run_measurement_spawned (target : Target) (depth : Z)
    (python_exec : pystr) (w wf : world) (r : result json) :
  run_measurement ROOT os_environ temp_name execute target depth
    python_exec w = (r, wf) ->
  spawned wf
  = spawned w ++ [helper_cmd ROOT target depth python_exec (temp_name w)].
Proof.
  intros Hrun. apply run_measurement_events in Hrun as (tail & Hev & Htail).
  unfold spawned. rewrite Hev, !omap_app.
  by destruct Htail as [->|(out & err & ->)].
Qed.

Lemma requests_cons (d : Z) (ds : list Z) (targets : list Target) :
  requests (d :: ds) targets
  = map (fun t => (d, t)) targets ++ requests ds targets.
Proof.
  unfold requests. cbn [mbind list_bind]. f_equal.
Qed.

Lemma for_targets_spawned (targets : list Target) (depth : Z)
    (python_exec : pystr) (acc : list json) (w wf : world)
    (r : result (list json)) :
  for_targets ROOT os_environ temp_name execute targets depth python_exec
    acc w = (r, wf) ->
  exists k hs,
    (k <= length targets)%nat
    /\ spawned wf = spawned w ++ hs
    /\ Forall2 (asks python_exec)
         (take k (map (fun t => (depth, t)) targets)) hs
    /\ (forall rs, r = Ok rs -> k = length targets).
Proof.
  revert acc w; induction targets as [|t ts IH]; intros acc w;
    cbn [for_targets].
  { intros [= <- <-]. exists 0%nat, []. rewrite app_nil_r.
    repeat split; try done; constructor. }
  unfold bind at 1.
  destruct (run_measurement _ _ _ _ t depth python_exec w)
    as [[data|e] w1] eqn:Hrun;
    apply run_measurement_spawned in Hrun as Hsp.
  - intros Hrest. apply IH in Hrest as (k & hs & Hk & Hs & Hall & Hok).
    exists (S k), (helper_cmd ROOT t depth python_exec (temp_name w) :: hs).
    repeat split.
    + cbn [length]. lia.
    + rewrite Hs, Hsp. by rewrite <- app_assoc.
    + cbn [map take]. constructor; [by eexists | done].
    + intros rs Hr. cbn [length]. f_equal. by eapply Hok.
  - intros [= <- <-].
    exists 1%nat, [helper_cmd ROOT t depth python_exec (temp_name w)].
    repeat split; try done.
    + cbn [length]. lia.
    + cbn [map take]. rewrite take_0. constructor; [by eexists | constructor].
Qed.

Lemma for_depths_spawned (sizes : list Z) (targets : list Target)
    (python_exec : pystr) (acc : list json) (w wf : world)
    (r : result (list json)) :
  for_depths ROOT os_environ temp_name execute sizes targets python_exec
    acc w = (r, wf) ->
  exists k hs,
    spawned wf = spawned w ++ hs
    /\ Forall2 (asks python_exec) (take k (requests sizes targets)) hs
    /\ (forall rs, r = Ok rs -> k = length (requests sizes targets)).
Proof.
  revert acc w; induction sizes as [|d ds IH]; intros acc w;
    cbn [for_depths].
  { intros [= <- <-]. exists 0%nat, []. rewrite app_nil_r.
    repeat split; try done; constructor. }
  unfold bind at 1.
  destruct (for_targets _ _ _ _ targets d python_exec acc w)
    as [[rs|e] w1] eqn:Hin;
    apply for_targets_spawned in Hin as (k1 & hs1 & Hk1 & Hs1 & Hall1 & Hok1).
  - intros Hrest. apply IH in Hrest as (k2 & hs2 & Hs2 & Hall2 & Hok2).
    specialize (Hok1 _ eq_refl). subst k1.
    rewrite take_ge in Hall1 by (by rewrite length_map).
    exists (length targets + k2)%nat, (hs1 ++ hs2). repeat split.
    + rewrite Hs2, Hs1. by rewrite <- app_assoc.
    + rewrite requests_cons, take_app_add' by (by rewrite length_map).
      by apply Forall2_app.
    + intros rs' Hr. rewrite requests_cons, length_app, length_map.
      f_equal. by eapply Hok2.
  - intros [= <- <-]. exists k1, hs1. repeat split; [done| |done].
    rewrite requests_cons, take_app_le by (by rewrite length_map). done.
Qed.


(** X20.  When the build tool cannot be started at all, the session ends
    there with [OSError]: the script exits with status 1, the only process
    it tried to start is the build, no measurement helper is started and
    nothing is printed; the files are untouched. *)
Theorem build_not_startable (args : Namespace) (w : world) :
  let out := script ROOT os_environ temp_name execute repr_other args w in
  execute w dotnet_publish (Some (joinpath ROOT (txt "dotnet"))) os_environ
  = None ->
  out.1 = 1
  /\ events out.2
     = events w ++ [Spawn dotnet_publish
                      (Some (joinpath ROOT (txt "dotnet"))) os_environ;
                    Traceback OSError]
  /\ files out.2 = files w.
Proof.
  intros out Hexec. subst out. unfold script, main, bind.
  rewrite ensure_dotnet_built_cases. cbv zeta. rewrite Hexec.
  cbn [fst snd]. unfold log. cbn [events files].
  by rewrite <- app_assoc.
Qed.

End SessionMore.

(** ** The other build steps *)

Section BuildMore.

Variable ROOT : pystr.
Variable home : pystr.
Variable os_environ : gmap pystr pystr.
Variable execute :
  world -> list pystr -> option pystr -> gmap pystr pystr
  -> option completed.

(** What a child run without pipes leaves in the world. *)
Lemma subprocess_run_plain (cmd : list pystr) (dir : option pystr)
    (environ : option (gmap pystr pystr)) (w : world) :
  subprocess_run os_environ execute false cmd dir environ w =
  match execute w cmd dir (default os_environ environ) with
  | None =>
    (Raise OSError, log (Spawn cmd dir (default os_environ environ)) w)
  | Some p =>
    (if returncode p =? 0 then Ok p
     else Raise (CalledProcessError (returncode p) cmd None None),
     {| files := files_after p;
        events := events w ++ [Spawn cmd dir (default os_environ environ);
                               ChildOutput (stdout p) (stderr p)] |})
  end.
Proof.
  unfold subprocess_run.
  destruct (execute w cmd dir (default os_environ environ)) as [p|]; [|done].
  unfold log; cbn [files events]. rewrite <- app_assoc.
  by destruct (returncode p =? 0).
Qed.

(** X12.  [ensure_java_compiled] returns normally exactly when [javac] could
    be started and exited with status 0; whatever the outcome it starts that
    one process, in the [java] directory, and prints nothing itself. *)
Theorem ensure_java_compiled_outcome (w : world) :
  let out := ensure_java_compiled ROOT os_environ execute w in
  (out.1 = Ok tt <->
   exists p, execute w javac (Some (joinpath ROOT (txt "java"))) os_environ
             = Some p /\ returncode p = 0)
  /\ spawned out.2 = spawned w ++ [javac]
  /\ printed out.2 = printed w.
Proof.
  intros out. subst out. unfold ensure_java_compiled, bind, ret.
  rewrite subprocess_run_plain. cbn [default]. unfold id.
  destruct (execute w javac _ os_environ) as [p|]; cbn [fst snd].
  - destruct (Z.eqb_spec (returncode p) 0) as [Hz|Hnz]; cbn [fst snd].
    + split; [split; [by eexists | done]|].
      unfold spawned, printed. cbn [events]. rewrite !omap_app. cbn.
      by rewrite app_nil_r.
    + split; [split; [done | by intros (? & [= <-] & ?)]|].
      unfold spawned, printed. cbn [events]. rewrite !omap_app. cbn.
      by rewrite app_nil_r.
  - split; [split; [done | by intros (? & [=] & ?)]|].
    unfold spawned, printed, log. cbn [events]. rewrite !omap_app. cbn.
    by rewrite app_nil_r.
Qed.

(** X13.  [ensure_go_built] runs [go build] in the [go] directory with the
    inherited environment in which [GOCACHE] is set to the [.gocache]
    directory of that directory, replacing any inherited value; every other
    variable is passed on unchanged. *)
Theorem ensure_go_built_environment (w : world) :
  let go_dir := joinpath ROOT (txt "go") in
  let out := ensure_go_built ROOT os_environ execute w in
  exists environ tail,
    events out.2 = events w ++ Spawn go_build (Some go_dir) environ :: tail
    /\ environ !! txt "GOCACHE" = Some (joinpath go_dir (txt ".gocache"))
    /\ (forall key, key <> txt "GOCACHE" ->
                    environ !! key = os_environ !! key)
    /\ spawned out.2 = spawned w ++ [go_build].
Proof.
  intros go_dir out. subst out. unfold ensure_go_built, bind, ret.
  rewrite subprocess_run_plain. cbn [default]. unfold id. fold go_dir.
  set (environ := <[txt "GOCACHE" := _]> os_environ).
  assert (Hcache : environ !! txt "GOCACHE"
                   = Some (joinpath go_dir (txt ".gocache")))
    by apply lookup_insert_eq.
  assert (Hother : forall key, key <> txt "GOCACHE" ->
                               environ !! key = os_environ !! key)
    by (intros key Hne; by apply lookup_insert_ne).
  destruct (execute w go_build _ environ) as [p|].
  - exists environ, [ChildOutput (stdout p) (stderr p)].
    destruct (returncode p =? 0); cbn [fst snd events];
      (repeat split; try done);
      unfold spawned; cbn [events]; rewrite !omap_app; done.
  - exists environ, []. cbn [fst snd]. repeat split; try done.
    unfold spawned, log. cbn [events]. by rewrite omap_app.
Qed.

(** X14.  [ensure_cpp_built] compiles the two programs one after the other:
    the second compiler run is started only when the first was started and
    exited with status 0; otherwise the error of the first is raised and
    only the first was started. *)
Theorem ensure_cpp_built_in_order (w : world) :
  let dir := Some (joinpath ROOT (txt "cpp")) in
  let out := ensure_cpp_built ROOT os_environ execute w in
  match execute w compile_manual dir os_environ with
  | None =>
    out.1 = Raise OSError /\ spawned out.2 = spawned w ++ [compile_manual]
  | Some p =>
    if returncode p =? 0
    then spawned out.2 = spawned w ++ [compile_manual; compile_unique]
    else out.1 = Raise (CalledProcessError (returncode p) compile_manual
                          None None)
         /\ spawned out.2 = spawned w ++ [compile_manual]
  end.
Proof.
  intros dir out. subst out. unfold ensure_cpp_built, bind, ret.
  rewrite subprocess_run_plain. cbn [default]. unfold id. fold dir.
  destruct (execute w compile_manual dir os_environ) as [p|].
  2:{ cbn [fst snd]. split; [done|].
      unfold spawned, log. cbn [events]. by rewrite omap_app. }
  destruct (returncode p =? 0).
  2:{ cbn [fst snd]. split; [done|].
      unfold spawned. cbn [events]. by rewrite omap_app. }
  rewrite subprocess_run_plain. cbn [default]. unfold id. fold dir.
  match goal with
  | |- context [execute ?W compile_unique dir os_environ] =>
    destruct (execute W compile_unique dir os_environ) as [q|]
  end.
  - assert (E : forall fs,
               spawned {| files := fs;
                          events := (events w
                                     ++ [Spawn compile_manual dir os_environ;
                                         ChildOutput (stdout p) (stderr p)])
                                    ++ [Spawn compile_unique dir os_environ;
                                        ChildOutput (stdout q) (stderr q)] |}
               = spawned w ++ [compile_manual; compile_unique]).
    { intros fs. unfold spawned. cbn [events]. rewrite !omap_app. cbn.
      by rewrite <- app_assoc. }
    destruct (returncode q =? 0); cbn [fst snd files events]; by apply E.
  - cbn [fst snd]. unfold spawned, log. cbn [events]. rewrite !omap_app.
    cbn. by rewrite <- app_assoc.
Qed.

(** X15.  [ensure_rust_built] pipes the streams of [cargo]: whatever the
    outcome, nothing [cargo] wrote reaches the streams of the session, which
    shows only that the process was started; and [cargo] runs with the
    [.cargo/bin] directory of the home directory put in front of the
    inherited [PATH]. *)
Theorem ensure_rust_built_swallows_output (w : world) :
  let out := ensure_rust_built ROOT home os_environ execute w in
  exists environ,
    events out.2
    = events w ++ [Spawn [txt "cargo"; txt "build"; txt "--release"]
                     (Some (joinpath ROOT (txt "rust"))) environ]
    /\ environ !! txt "PATH"
       = Some (joinpath (joinpath home (txt ".cargo")) (txt "bin")
               ++ txt ":" ++ default [] (os_environ !! txt "PATH"))
    /\ forall key, key <> txt "PATH" -> environ !! key = os_environ !! key.
Proof.
  intros out. subst out.
  cbv beta zeta delta [ensure_rust_built subprocess_run].
  cbn [default]. unfold id.
  set (environ := <[txt "PATH" := _]> os_environ).
  exists environ. split; [|split].
  - destruct (execute w _ _ environ) as [p|]; [|done].
    by destruct (returncode p =? 0).
  - apply lookup_insert_eq.
  - intros key Hne. by apply lookup_insert_ne.
Qed.

End BuildMore.

(** ** The bootstrap script *)

Section BootstrapFacts.

Variable ROOT : pystr.
Variable sys_executable : pystr.
Variable os_environ : gmap pystr pystr.
Variable execute :
  world -> list pystr -> option pystr -> gmap pystr pystr
  -> option completed.

Local Abbreviation start := (Bootstrap.run os_environ execute).
Local Abbreviation venv :=
  (Bootstrap.ensure_venv ROOT sys_executable os_environ execute).
Local Abbreviation steps := (Bootstrap.run_steps os_environ execute).
Local Abbreviation acts := (Bootstrap.step_actions os_environ).

Lemma actions_app (w wf : world) (evs : list event) :
  events wf = events w ++ evs ->
  actions wf
  = actions w
    ++ omap (fun ev => match ev with
                       | Print _ | Spawn _ _ _ => Some ev
                       | _ => None
                       end) evs.
Proof. intros Hev. unfold actions. by rewrite Hev, omap_app. Qed.

(** What [run] does, by what the command does. *)
Lemma bootstrap_run_cases (cmd : list pystr) (cwd : pystr) (w : world) :
  let line := Bootstrap.announcement cmd cwd in
  start cmd cwd w =
  match execute (log (Print line) w) cmd (Some cwd) os_environ with
  | None =>
    (Raise OSError,
     {| files := files w;
        events := events w ++ [Print line;
                               Spawn cmd (Some cwd) os_environ] |})
  | Some p =>
    (if returncode p =? 0 then Ok tt
     else Raise (CalledProcessError (returncode p) cmd None None),
     {| files := files_after p;
        events := events w ++ [Print line; Spawn cmd (Some cwd) os_environ;
                               ChildOutput (stdout p) (stderr p)] |})
  end.
Proof.
  intros line. unfold Bootstrap.run, bind, print, ret. fold line.
  rewrite subprocess_run_plain. cbn [default]. unfold id.
  destruct (execute (log (Print line) w) cmd (Some cwd) os_environ) as [p|].
  - unfold log; cbn [files events]. rewrite <- app_assoc.
    by destruct (returncode p =? 0).
  - unfold log; cbn [files events]. by rewrite <- app_assoc.
Qed.

Lemma bootstrap_run_actions (cmd : list pystr) (cwd : pystr)
    (w wf : world) (r : result unit) :
  start cmd cwd w = (r, wf) -> actions wf = actions w ++ acts (cmd, cwd).
Proof.
  rewrite bootstrap_run_cases. cbv zeta.
  destruct (execute _ cmd (Some cwd) os_environ) as [p|]; intros [= _ <-];
    unfold actions; cbn [events]; by rewrite omap_app.
Qed.

(** X16.  [run] announces a command on standard output before it starts
    it, also when the command then cannot be started or fails; it returns
    normally exactly when the command was started and exited with
    status 0. *)
Theorem bootstrap_run_announces (cmd : list pystr) (cwd : pystr)
    (w wf : world) (r : result unit) :
  start cmd cwd w = (r, wf) ->
  actions wf = actions w ++ acts (cmd, cwd)
  /\ (r = Ok tt <->
      exists p,
        execute (log (Print (Bootstrap.announcement cmd cwd)) w) cmd
          (Some cwd) os_environ = Some p
        /\ returncode p = 0).
Proof.
  intros Hrun. split; [by eapply bootstrap_run_actions|].
  rewrite bootstrap_run_cases in Hrun. cbv zeta in Hrun.
  destruct (execute _ cmd (Some cwd) os_environ) as [p|].
  - destruct (Z.eqb_spec (returncode p) 0) as [Hz|Hnz];
      injection Hrun as <- _.
    + split; [by eexists | done].
    + split; [done | by intros (? & [= <-] & ?)].
  - injection Hrun as <- _. split; [done | by intros (? & [=] & ?)].
Qed.

(** X17.  When the interpreter of the virtual environment exists,
    [ensure_venv] starts nothing, prints nothing and returns its path.  When
    it does not exist and the command that creates the environment exits with
    status 0, [ensure_venv] returns the path all the same, without looking
    whether the interpreter exists now. *)
Theorem bootstrap_ensure_venv (w : world) :
  let path := Bootstrap.python_in_venv ROOT in
  let line :=
    txt "[bootstrap] Creating virtual environment: " ++ Bootstrap.VENV ROOT in
  let create := [sys_executable; txt "-m"; txt "venv"; Bootstrap.VENV ROOT] in
  (is_Some (files w !! path) -> venv w = (Ok path, w))
  /\ (forall p,
        files w !! path = None ->
        execute
          (log (Print (Bootstrap.announcement create ROOT))
             (log (Print line) w))
          create (Some ROOT) os_environ = Some p ->
        returncode p = 0 ->
        (venv w).1 = Ok path
        /\ files (venv w).2 = files_after p
        /\ printed (venv w).2
           = printed w ++ [line; Bootstrap.announcement create ROOT]).
Proof.
  intros path line create. split.
  - intros Hsome. unfold Bootstrap.ensure_venv, bind, path_exists, ret.
    fold path. by rewrite bool_decide_eq_true_2.
  - intros p Hnone Hexec Hcode.
    assert (E : venv w
                = (Ok path,
                   {| files := files_after p;
                      events :=
                        events (log (Print line) w)
                        ++ [Print (Bootstrap.announcement create ROOT);
                            Spawn create (Some ROOT) os_environ;
                            ChildOutput (stdout p) (stderr p)] |})).
    { unfold Bootstrap.ensure_venv, bind, path_exists. fold path.
      rewrite bool_decide_eq_false_2 by (rewrite Hnone; by intros [? [=]]).
      cbn [negb]. unfold print at 1. fold line create.
      rewrite bootstrap_run_cases. cbv zeta. fold create.
      by rewrite Hexec, Hcode. }
    rewrite E. cbn [fst snd files]. split; [done|]. split; [done|].
    unfold printed, log. cbn [events]. rewrite !omap_app. cbn.
    by rewrite <- app_assoc.
Qed.

Lemma bootstrap_ensure_venv_value (w w1 : world) (v : pystr) :
  venv w = (Ok v, w1) -> v = Bootstrap.python_in_venv ROOT.
Proof.
  unfold Bootstrap.ensure_venv, bind, path_exists, ret.
  destruct (negb _).
  - unfold print at 1.
    destruct (Bootstrap.run _ _ _ _ _) as [[[]|e] w2]; by intros [= <- _].
  - by intros [= <- _].
Qed.

Lemma bootstrap_run_steps_actions (plan : list (list pystr * pystr))
    (w wf : world) (r : result unit) :
  steps plan w = (r, wf) ->
  exists k,
    (k <= length plan)%nat
    /\ actions wf = actions w ++ (take k plan ≫= acts)
    /\ (r = Ok tt -> k = length plan).
Proof.
  revert w; induction plan as [|[cmd cwd] plan IH]; intros w;
    cbn [Bootstrap.run_steps].
  { intros [= <- <-]. exists 0%nat. by rewrite app_nil_r. }
  unfold bind at 1. cbn [fst snd].
  destruct (start cmd cwd w) as [[[]|e] w1] eqn:Hrun;
    apply bootstrap_run_actions in Hrun.
  - intros Hrest. apply IH in Hrest as (k & Hk & Hact & Hok).
    exists (S k). cbn [length take mbind list_bind]. repeat split.
    + lia.
    + rewrite Hact, Hrun. by rewrite <- app_assoc.
    + intros Hr. f_equal. by apply Hok.
  - intros [= <- <-]. exists 1%nat. cbn [length take mbind list_bind].
    rewrite take_0. cbn [mbind list_bind]. rewrite app_nil_r.
    repeat split; [lia | done | done].
Qed.

(** [main] is [ensure_venv] followed by the four install steps. *)
Lemma bootstrap_main_as_steps (w : world) :
  Bootstrap.main ROOT sys_executable os_environ execute w
  = (_ <- venv;; steps (Bootstrap.installs ROOT);; ret 0)%py w.
Proof.
  unfold Bootstrap.main, bind at 1 6.
  destruct (venv w) as [[v|e] w1] eqn:Hvenv; [|done].
  apply bootstrap_ensure_venv_value in Hvenv as ->.
  unfold Bootstrap.installs. cbn [Bootstrap.run_steps fst snd]. unfold bind.
  repeat match goal with
         | |- context [start ?c ?d ?W] =>
           destruct (start c d W) as [[[]|?] ?]; try done
         end.
Qed.


End BootstrapFacts.

(** ** Examples of the further properties *)

Lemma command_leaves_no_placeholder_witness :
  (placeholder ∉ command (Example.target "A") 16)
  /\ (placeholder ∉ template (Example.target "A") ->
      command (Example.target "A") 16 = template (Example.target "A"))
  /\ forall D',
       command {| name := txt "A"; cwd := txt "/repo/x";
                  template := command (Example.target "A") 16;
                  env := None |} D'
       = command (Example.target "A") 16.
Proof. exact (command_leaves_no_placeholder (Example.target "A") 16). Defined.

Lemma command_matches_whole_tokens_witness :
  command {| name := txt "A"; cwd := txt "/";
             template := [txt "./run"; txt "--depth={n}"]; env := None |} 16
  !! 1%nat
  = Some (txt "--depth={n}").
Proof.
  apply (command_matches_whole_tokens
           {| name := txt "A"; cwd := txt "/";
              template := [txt "./run"; txt "--depth={n}"]; env := None |}
           16 1 (txt "--depth=") []);
    [discriminate | vm_compute; reflexivity].
Defined.

Lemma command_tells_depths_apart_witness :
  placeholder ∈ template (Example.target "A") /\ 16 = 16.
Proof.
  assert (H : placeholder ∈ template (Example.target "A"))
    by (vm_compute; apply list_elem_of_further, list_elem_of_here).
  split; [exact H|].
  apply (command_tells_depths_apart (Example.target "A") 16 16 H).
  reflexivity.
Defined.

Lemma run_measurement_one_child_witness :
  let out := Example.measure_with Example.cannot_start
               (Example.target "Rust") 16 Example.w0 in
  spawned out.2
  = spawned Example.w0
    ++ [helper_cmd Example.ROOT (Example.target "Rust") 16 Example.py
          (Example.temp_name Example.w0)]
  /\ printed out.2 = printed Example.w0.
Proof.
  intros out.
  apply (run_measurement_one_child Example.ROOT Example.os_environ
           Example.temp_name Example.cannot_start (Example.target "Rust")
           16 Example.py Example.w0 out.2 out.1).
  vm_compute. reflexivity.
Defined.

Lemma temporary_file_left_on_early_failure_witness :
  let out := Example.measure_with Example.cannot_start
               (Example.target "Rust") 16 Example.w0 in
  out.1 = Raise OSError
  /\ files out.2 !! Example.temp_name Example.w0 = Some [].
Proof.
  intros out.
  apply (proj1 (temporary_file_left_on_early_failure Example.ROOT
                  Example.os_environ Example.temp_name Example.cannot_start
                  (Example.target "Rust") 16 Example.py Example.w0)).
  reflexivity.
Defined.

Lemma temporary_file_removed_on_parse_failure_witness :
  let out := Example.measure (Some (Example.quoted "[1, 2]"))
               (Example.target "Rust") 16 Example.w0 in
  (out.1 = Raise JSONDecodeError \/ out.1 = Raise TypeError)
  /\ files out.2 !! Example.temp_name Example.w0 = None.
Proof.
  intros out.
  apply (temporary_file_removed_on_parse_failure Example.ROOT
           Example.os_environ Example.temp_name
           (Example.helper_writes (Some (Example.quoted "[1, 2]")))
           (Example.target "Rust") 16 Example.py Example.w0
           {| returncode := 0; stdout := []; stderr := [];
              files_after := {[ Example.temp_name Example.w0
                                := Example.quoted "[1, 2]" ]} |}
           (Example.quoted "[1, 2]") (txt "[1, 2]"));
    try (vm_compute; reflexivity).
  intros members. vm_compute. discriminate.
Defined.

Lemma format_table_first_bad_row_witness :
  format_table Example.repr_other
    ([Example.row "Go" 10 (JInt 5)]
     ++ JObj {[ txt "language" := JStr (txt "Rust") ]}
     :: [Example.row "C" 16 (JInt 7)])
  = Raise (KeyError (txt "depth")).
Proof.
  apply format_table_first_bad_row.
  - repeat constructor. eexists. vm_compute. reflexivity.
  - vm_compute. reflexivity.
Defined.

Lemma format_table_reads_three_keys_witness :
  format_table Example.repr_other [Example.row "Go" 10 (JInt 5)]
  = format_table Example.repr_other
      [JObj {[ txt "language" := JStr (txt "Go"); txt "depth" := JInt 10;
               txt "peak_mb" := JInt 5; txt "runs" := JInt 3 ]}].
Proof.
  apply format_table_reads_three_keys.
  repeat constructor; vm_compute; reflexivity.
Defined.

Lemma widen_grows_witness :
  length [4; 3; 11]%nat = length [2; 3; 11]%nat
  /\ forall i a, [2; 3; 11]%nat !! i = Some a ->
                 exists b, [4; 3; 11]%nat !! i = Some b /\ (a <= b)%nat.
Proof.
  apply (widen_grows [cells_json (txt "Rust", txt "16", txt "12.30")]).
  vm_compute. reflexivity.
Defined.

Lemma ensure_rust_built_carries_text_witness :
  (ensure_rust_built Example.ROOT Example.home Example.os_environ
     Example.build_fails Example.w0).1
  = Raise (RuntimeError
             (txt "cargo build --release 失败：error CS1002: ; expected"))
  /\ printed (ensure_rust_built Example.ROOT Example.home Example.os_environ
                Example.build_fails Example.w0).2
     = printed Example.w0.
Proof.
  apply (ensure_rust_built_carries_text Example.ROOT Example.os_environ
           Example.build_fails Example.home Example.w0
           (Example.exits 1 (txt "Build FAILED.")
              (txt "error CS1002: ; expected") Example.w0));
    [vm_compute; reflexivity | discriminate].
Defined.

Lemma bootstrap_run_announces_witness :
  let out := Bootstrap.run Example.os_environ (Example.fails_at "npm")
               [txt "npm"; txt "install"] (txt "/repo/nodejs") Example.w0 in
  actions out.2
  = actions Example.w0
    ++ Bootstrap.step_actions Example.os_environ
         ([txt "npm"; txt "install"], txt "/repo/nodejs")
  /\ (out.1 = Ok tt <->
      exists p,
        Example.fails_at "npm"
          (log (Print (Bootstrap.announcement [txt "npm"; txt "install"]
                         (txt "/repo/nodejs"))) Example.w0)
          [txt "npm"; txt "install"] (Some (txt "/repo/nodejs"))
          Example.os_environ = Some p
        /\ returncode p = 0).
Proof.
  intros out.
  apply (bootstrap_run_announces Example.os_environ (Example.fails_at "npm")
           [txt "npm"; txt "install"] (txt "/repo/nodejs") Example.w0
           out.2 out.1).
  vm_compute. reflexivity.
Defined.

Lemma bootstrap_ensure_venv_witness :
  let w := {| files := {[ Bootstrap.python_in_venv Example.ROOT := [] ]};
              events := [] |} in
  Bootstrap.ensure_venv Example.ROOT Example.py Example.os_environ
    Example.cannot_start w
  = (Ok (Bootstrap.python_in_venv Example.ROOT), w).
Proof.
  intros w.
  apply (proj1 (bootstrap_ensure_venv Example.ROOT Example.py
                  Example.os_environ Example.cannot_start w)).
  vm_compute. eauto.
Defined.


(** The script stops at [npm]: pip was run, go and cargo were not. *)
Example bootstrap_stops_at_npm :
  (Example.bootstrap (Example.fails_at "npm")).1 = 1
  /\ map head (spawned (Example.bootstrap (Example.fails_at "npm")).2)
     = [Some Example.py; Some (txt "/repo/.venv/bin/python");
        Some (txt "npm")].
Proof. split; vm_compute; reflexivity. Qed.

Lemma build_not_startable_witness :
  (Example.session Example.cannot_start [10; 16]).1 = 1
  /\ events (Example.session Example.cannot_start [10; 16]).2
     = events Example.w0
       ++ [Spawn dotnet_publish
             (Some (joinpath Example.ROOT (txt "dotnet"))) Example.os_environ;
           Traceback OSError]
  /\ files (Example.session Example.cannot_start [10; 16]).2
     = files Example.w0.
Proof.
  apply (build_not_startable Example.ROOT Example.os_environ
           Example.temp_name Example.cannot_start Example.repr_other
           {| depths := [10; 16]; python := Example.py |} Example.w0).
  reflexivity.
Defined.

(** A form feed before and a no-break space after the object: [json.loads]
    alone rejects the text, stripped it parses. *)
Lemma strip_ignores_surrounding_space_witness :
  Json.loads (strip ([12%N] ++ txt "{}" ++ [160%N]))
  = Json.loads (strip (txt "{}"))
  /\ Json.loads ([12%N] ++ txt "{}" ++ [160%N]) = None
  /\ Json.loads (strip (txt "{}")) = Some (JObj ∅).
Proof.
  split; [|split; vm_compute; reflexivity].
  apply (strip_ignores_surrounding_space [12%N] (txt "{}") [160%N]);
    reflexivity.
Defined.
